(** * Trust Network Tracker: a shallow embedding of [src/tools/trust_network.py]

    The development follows the Python class [TrustNetworkTracker]:
    - the in-memory profile map [self.trust_network] is a [gmap string Profile];
    - a profile (a Python dict with six fixed keys) is the record [Profile];
    - Python's unbounded [int] is [Z];
    - methods run in a state-and-exception monad [M] over the tracker (the
      profile map and the JSON file at [data_path]); a Python exception is a
      [Raise] result, a returned value a [Return] result;
    - [json.dump] / [json.load] act on JSON documents (type [json]); the
      file keeps the document that was last written successfully.

    A Python [float] is modelled twice. In the tracker above the averages
    are exact rationals [Qc]: this model carries the statements that do not
    depend on how an operation rounds (which profiles exist, what the lists
    and the file hold, which sentences a recommendation contains, the range
    of the scores). The module [Binary64] models [update_trust] and the
    tier thresholds on binary64 floats, operation for operation: it carries
    the statements about the value of an average and about the comparison
    of a score with a threshold, and the exceptions of the arithmetic. *)

From Stdlib Require Import QArith Qcanon Qround Lqa Floats.
From stdpp Require Import numbers strings gmap list.

Local Open Scope string_scope.
Local Open Scope list_scope.
Local Open Scope Z_scope.
Local Open Scope Qc_scope.

#[local] Set Warnings "-inexact-float".

(** ** Numbers *)

(** Decimal literals of the source ([0.8], [0.5], ...) as exact rationals
    (the doubles they denote are those of [Binary64] below). *)
Definition decimal (n : Z) (d : positive) : Qc := Q2Qc (n # d).

(** ** Exceptions and results *)

Inductive exn : Type :=
  | ZeroDivisionError
  | OverflowError
  | KeyError (key : string)
  | ValueError
  | TypeError
  | OSError
  | JSONDecodeError.

Inductive result (A : Type) : Type :=
  | Return (a : A)
  | Raise (e : exn).
Arguments Return {A} a.
Arguments Raise {A} e.

Definition raises {A} (r : result A) : Prop :=
  match r with Return _ => False | Raise _ => True end.

Global Instance exn_eq_dec : EqDecision exn.
Proof. solve_decision. Defined.

(** ** Data model *)

(** The dict built at lines 120-127 of the source, read through its keys. *)
Record Profile : Type := mkProfile {
  interactions : Z;
  reliability : Qc;
  interaction_quality : Qc;
  collaboration_style : string;
  strengths : list string;
  areas_for_growth : list string
}.

Global Instance Profile_eq_dec : EqDecision Profile.
Proof. solve_decision. Defined.

(** The literal assigned to [self.trust_network[agent_id]] for an unseen agent. *)
Definition new_profile : Profile :=
  {| interactions := 0;
     reliability := 0;
     interaction_quality := 0;
     collaboration_style := "unknown";
     strengths := [];
     areas_for_growth := [] |}.

Definition set_interactions (n : Z) (p : Profile) : Profile :=
  {| interactions := n;
     reliability := reliability p;
     interaction_quality := interaction_quality p;
     collaboration_style := collaboration_style p;
     strengths := strengths p;
     areas_for_growth := areas_for_growth p |}.

Definition set_reliability (r : Qc) (p : Profile) : Profile :=
  {| interactions := interactions p;
     reliability := r;
     interaction_quality := interaction_quality p;
     collaboration_style := collaboration_style p;
     strengths := strengths p;
     areas_for_growth := areas_for_growth p |}.

Definition set_interaction_quality (q : Qc) (p : Profile) : Profile :=
  {| interactions := interactions p;
     reliability := reliability p;
     interaction_quality := q;
     collaboration_style := collaboration_style p;
     strengths := strengths p;
     areas_for_growth := areas_for_growth p |}.

Definition set_collaboration_style (s : string) (p : Profile) : Profile :=
  {| interactions := interactions p;
     reliability := reliability p;
     interaction_quality := interaction_quality p;
     collaboration_style := s;
     strengths := strengths p;
     areas_for_growth := areas_for_growth p |}.

Definition set_strengths (l : list string) (p : Profile) : Profile :=
  {| interactions := interactions p;
     reliability := reliability p;
     interaction_quality := interaction_quality p;
     collaboration_style := collaboration_style p;
     strengths := l;
     areas_for_growth := areas_for_growth p |}.

Definition set_areas_for_growth (l : list string) (p : Profile) : Profile :=
  {| interactions := interactions p;
     reliability := reliability p;
     interaction_quality := interaction_quality p;
     collaboration_style := collaboration_style p;
     strengths := strengths p;
     areas_for_growth := l |}.

(** ** JSON documents and the file at [data_path] *)

#[local] Unset Elimination Schemes.
Inductive json : Type :=
  | JNull
  | JBool (b : bool)
  | JInt (n : Z)
  | JFloat (q : Qc)
  | JString (s : string)
  | JArray (items : list json)
  | JObject (members : list (string * json)).
#[local] Set Elimination Schemes.

(** What is found at [data_path]: no file; a file that cannot be opened or
    whose text [json.load] rejects; a file that holds a JSON document; or a
    path that cannot even be examined, so that [Path.exists] itself raises
    (a directory on the way denies access: [PermissionError], an
    [OSError]). *)
Inductive FileContent : Type :=
  | FileAbsent
  | FileMalformed
  | FileDoc (doc : json)
  | FileInaccessible.

(** What happens to one attempt to write the file: it succeeds, [open]
    raises (the file is left as it was), or the write raises after the file
    was truncated. *)
Inductive WriteOutcome : Type :=
  | WriteOk
  | OpenFails
  | DumpFails.

(** The file and the outcomes the environment has in store for the next
    writes (none listed: the write succeeds). *)
Record Disk : Type := mkDisk {
  content : FileContent;
  outcomes : list WriteOutcome
}.

(** ** The tracker and its monad *)

Record Tracker : Type := mkTracker {
  trust_network : gmap string Profile;
  disk : Disk
}.

Definition M (A : Type) : Type := Tracker → Tracker * result A.

Global Instance M_ret : MRet M := λ A a st, (st, Return a).

Global Instance M_bind : MBind M := λ A B f m st,
  match m st with
  | (st', Return a) => f a st'
  | (st', Raise e) => (st', Raise e)
  end.

Definition raise {A} (e : exn) : M A := λ st, (st, Raise e).

Definition get_network : M (gmap string Profile) :=
  λ st, (st, Return (trust_network st)).

Definition put_network (net : gmap string Profile) : M unit :=
  λ st, ({| trust_network := net; disk := disk st |}, Return ()).

Definition get_disk : M Disk := λ st, (st, Return (disk st)).

Definition put_disk (d : Disk) : M unit :=
  λ st, ({| trust_network := trust_network st; disk := d |}, Return ()).

(** [try: ... except Exception: ...] around a block. *)
Definition try_except {A} (body : M A) (handler : exn → M A) : M A := λ st,
  match body st with
  | (st', Return a) => (st', Return a)
  | (st', Raise e) => handler e st'
  end.

(** [self.trust_network[agent_id]] as an expression: [KeyError] when absent. *)
Definition getitem (agent_id : string) : M Profile :=
  net ← get_network;
  match net !! agent_id with
  | Some p => mret p
  | None => raise (KeyError agent_id)
  end.

(** An assignment [agent_profile[key] = v] through the alias
    [agent_profile = self.trust_network[agent_id]]: the stored dict changes. *)
Definition setitem (agent_id : string) (f : Profile → Profile) : M unit :=
  p ← getitem agent_id;
  net ← get_network;
  put_network (<[agent_id := f p]> net).

(** Python's true division [x / y], without rounding. *)
Definition truediv (x y : Qc) : M Qc :=
  if decide (y = 0) then raise ZeroDivisionError else mret (x / y).

(** [for x in xs: body]. *)
Fixpoint for_each {A} (xs : list A) (body : A → M unit) : M unit :=
  match xs with
  | [] => mret ()
  | x :: rest => body x ;; for_each rest body
  end.

(** ** Persistence: [_save_network] and [_load_network] *)

(** [json.dump] of one profile dict: the keys in the order of the literal
    that created it. *)
Definition profile_to_json (p : Profile) : json :=
  JObject
    [ ("interactions", JInt (interactions p));
      ("reliability", JFloat (reliability p));
      ("interaction_quality", JFloat (interaction_quality p));
      ("collaboration_style", JString (collaboration_style p));
      ("strengths", JArray (JString <$> strengths p));
      ("areas_for_growth", JArray (JString <$> areas_for_growth p)) ].

Definition network_to_json (net : gmap string Profile) : json :=
  JObject (prod_map id profile_to_json <$> map_to_list net).

(** Reading a key of a parsed JSON object: [json.load] keeps the last of
    several members with one name. *)
Fixpoint member (k : string) (members : list (string * json)) : option json :=
  match members with
  | [] => None
  | (k', v) :: rest =>
      match member k rest with
      | Some v' => Some v'
      | None => if decide (k = k') then Some v else None
      end
  end.

Definition as_int (j : json) : option Z :=
  match j with JInt n => Some n | _ => None end.

Definition as_number (j : json) : option Qc :=
  match j with JInt n => Some (Qc_of_Z n) | JFloat q => Some q | _ => None end.

Definition as_string (j : json) : option string :=
  match j with JString s => Some s | _ => None end.

Definition as_string_list (j : json) : option (list string) :=
  match j with JArray items => mapM as_string items | _ => None end.

(** The typed reading of a loaded profile dict, through the six keys the
    tracker reads. *)
Definition as_profile (j : json) : option Profile :=
  match j with
  | JObject members =>
      n ← member "interactions" members ≫= as_int;
      r ← member "reliability" members ≫= as_number;
      q ← member "interaction_quality" members ≫= as_number;
      s ← member "collaboration_style" members ≫= as_string;
      st ← member "strengths" members ≫= as_string_list;
      ar ← member "areas_for_growth" members ≫= as_string_list;
      Some (mkProfile n r q s st ar)
  | _ => None
  end.

Definition as_network (j : json) : option (gmap string Profile) :=
  match j with
  | JObject members =>
      list_to_map <$> mapM (λ kv, pair kv.1 <$> as_profile kv.2) (reverse members)
  | _ => None
  end.

(** [open(self.data_path, "w")] followed by [json.dump(..., f, indent=2)]. *)
Definition write_file (doc : json) : M unit :=
  d ← get_disk;
  match outcomes d with
  | [] => put_disk {| content := FileDoc doc; outcomes := [] |}
  | WriteOk :: rest => put_disk {| content := FileDoc doc; outcomes := rest |}
  | OpenFails :: rest =>
      put_disk {| content := content d; outcomes := rest |} ;; raise OSError
  | DumpFails :: rest =>
      put_disk {| content := FileMalformed; outcomes := rest |} ;; raise OSError
  end.

(** [open(self.data_path, "r")] followed by [json.load(f)]. *)
Definition read_file : M json :=
  d ← get_disk;
  match content d with
  | FileDoc doc => mret doc
  | FileMalformed => raise JSONDecodeError
  | FileAbsent => raise OSError
  | FileInaccessible => raise OSError
  end.

(** [self.data_path.exists()]: a missing file is [False]; an error other
    than "no such file" is raised to the caller. *)
Definition path_exists : M bool :=
  d ← get_disk;
  match content d with
  | FileAbsent => mret false
  | FileMalformed | FileDoc _ => mret true
  | FileInaccessible => raise OSError
  end.

Definition _save_network : M unit :=
  try_except
    (net ← get_network; write_file (network_to_json net))
    (λ _, mret ()).

(** A well-formed document that is not a map of profiles has no typed
    counterpart: Python would keep it and fail at its first use, the model
    raises [TypeError] at once, outside the [try]. *)
Definition _load_network : M (gmap string Profile) :=
  present ← path_exists;
  if (present : bool) then
    loaded ← try_except (doc ← read_file; mret (Some doc)) (λ _, mret None);
    match loaded with
    | None => mret ∅
    | Some doc =>
        match as_network doc with
        | Some net => mret net
        | None => raise TypeError
        end
    end
  else mret ∅.

(** [TrustNetworkTracker(data_path)]: a fresh instance over the file. *)
Definition __init__ (d : Disk) : Tracker * result unit :=
  (net ← _load_network; put_network net) {| trust_network := ∅; disk := d |}.

(** ** Python built-ins used by the tracker *)

(** Truthiness of an optional string argument: [None] and [""] are falsy. *)
Definition truthy_str (o : option string) : option string :=
  match o with
  | Some s => if decide (s = "") then None else Some s
  | None => None
  end.

(** Truthiness of an optional list argument: [None] and [[]] are falsy. *)
Definition truthy_list {A} (o : option (list A)) : option (list A) :=
  match o with
  | Some (x :: l) => Some (x :: l)
  | _ => None
  end.

(** [sum(xs)]: starts from [0] and adds from the left, without rounding. *)
Definition py_sum (xs : list Qc) : Qc := foldl Qcplus 0 xs.

(** [len(xs)] as a number. *)
Definition py_len {A} (xs : list A) : Qc := Qc_of_Z (Z.of_nat (length xs)).

(** [max(xs)] and [min(xs)]: [ValueError] on an empty list. *)
Definition py_max (xs : list Qc) : M Qc :=
  match xs with
  | [] => raise ValueError
  | x :: rest => mret (foldl (λ m y, if decide (m < y) then y else m) x rest)
  end.

Definition py_min (xs : list Qc) : M Qc :=
  match xs with
  | [] => raise ValueError
  | x :: rest => mret (foldl (λ m y, if decide (y < m) then y else m) x rest)
  end.

(** [round(x)] to the nearest integer, ties to the even one. *)
Definition round_half_even (x : Qc) : Z :=
  let f := Qfloor x in
  let r := x - Qc_of_Z f in
  if decide (r < decimal 1 2) then f
  else if decide (decimal 1 2 < r) then (f + 1)%Z
  else if Z.even f then f else (f + 1)%Z.

(** [round(x, 2)] of an exact decimal. *)
Definition py_round2 (x : Qc) : Qc :=
  Qc_of_Z (round_half_even (x * Qc_of_Z 100)) / Qc_of_Z 100.

(** [sep.join(items)]. *)
Fixpoint join (sep : string) (items : list string) : string :=
  match items with
  | [] => ""
  | [s] => s
  | s :: rest => s ++ sep ++ join sep rest
  end.

(** [d[k] = d.get(k, 0) + 1] on a dict that keeps insertion order. *)
Fixpoint count_incr (k : string) (d : list (string * Z)) : list (string * Z) :=
  match d with
  | [] => [(k, 1%Z)]
  | (k', c) :: rest =>
      if decide (k' = k) then (k', (c + 1)%Z) :: rest
      else (k', c) :: count_incr k rest
  end.

(** ** [update_trust] *)

(** [for x in new: if x not in agent_profile[key]: agent_profile[key].append(x)] *)
Definition append_missing (agent_id : string)
    (get : Profile → list string) (set : list string → Profile → Profile)
    (new : list string) : M unit :=
  for_each new (λ x,
    agent_profile ← getitem agent_id;
    if decide (x ∈ get agent_profile) then mret ()
    else setitem agent_id (set (get agent_profile ++ [x])%list)).

Definition update_trust (agent_id : string)
    (quality reliability_score : Qc)
    (style : option string)
    (new_strengths new_areas : option (list string)) : M Profile :=
  net ← get_network;
  match net !! agent_id with
  | None => put_network (<[agent_id := new_profile]> net)
  | Some _ => mret ()
  end ;;
  agent_profile ← getitem agent_id;
  setitem agent_id (set_interactions (interactions agent_profile + 1)) ;;
  agent_profile ← getitem agent_id;
  let interaction_count := interactions agent_profile in
  let current_reliability := reliability agent_profile in
  r ← truediv
        (current_reliability * Qc_of_Z (interaction_count - 1) + reliability_score)
        (Qc_of_Z interaction_count);
  setitem agent_id (set_reliability r) ;;
  agent_profile ← getitem agent_id;
  let current_quality := interaction_quality agent_profile in
  q ← truediv
        (current_quality * Qc_of_Z (interaction_count - 1) + quality)
        (Qc_of_Z interaction_count);
  setitem agent_id (set_interaction_quality q) ;;
  match truthy_str style with
  | Some s => setitem agent_id (set_collaboration_style s)
  | None => mret ()
  end ;;
  match truthy_list new_strengths with
  | Some l => append_missing agent_id strengths set_strengths l
  | None => mret ()
  end ;;
  match truthy_list new_areas with
  | Some l => append_missing agent_id areas_for_growth set_areas_for_growth l
  | None => mret ()
  end ;;
  _save_network ;;
  getitem agent_id.

(** ** [get_agent_profile] *)

Inductive ProfileReply : Type :=
  | ProfileFound (p : Profile)
  | ProfileError (error : string).

Definition get_agent_profile (agent_id : string) : M ProfileReply :=
  net ← get_network;
  match net !! agent_id with
  | Some p => mret (ProfileFound p)
  | None => mret (ProfileError "Agent not found in trust network")
  end.

(** ** [get_collaboration_recommendation] *)

Record CollaborationRecommendation : Type := mkRecommendation {
  collaboration_potential : string;
  collaboration_score : Qc;
  recommended_approach : list string;
  potential_challenges : list string;
  common_strengths : list string;
  unique_strengths : list string;
  agents : gmap string Profile
}.

(** The two dict shapes the method returns. *)
Inductive Reply : Type :=
  | NotFound (error : string) (missing_agents : list string)
  | Recommendation (r : CollaborationRecommendation).

(** [[self.trust_network[agent_id][key] for agent_id in agent_ids]] *)
Definition each_profile {A} (key : Profile → A) (agent_ids : list string) : M (list A) :=
  mapM (λ agent_id, agent_profile ← getitem agent_id; mret (key agent_profile)) agent_ids.

(** The [if / elif / else] chain on the collaboration score. *)
Definition potential_of (collaboration_score : Qc) : string :=
  if decide (decimal 8 10 ≤ collaboration_score) then "very high"
  else if decide (decimal 6 10 ≤ collaboration_score) then "high"
  else if decide (decimal 4 10 ≤ collaboration_score) then "moderate"
  else "challenging".

Definition count_strengths (all_strengths : list string) : list (string * Z) :=
  foldl (λ strength_counts strength, count_incr strength strength_counts) [] all_strengths.

Definition style_challenge : string :=
  "Different collaboration styles may require adaptation".

Definition reliability_challenge : string :=
  "Significant reliability differences between agents".

Definition get_collaboration_recommendation (agent_ids : list string) : M Reply :=
  net ← get_network;
  let missing_agents := filter (λ agent_id, net !! agent_id = None) agent_ids in
  match missing_agents with
  | _ :: _ => mret (NotFound "Agents not found in trust network" missing_agents)
  | [] =>
      reliabilities ← each_profile reliability agent_ids;
      avg_reliability ← truediv (py_sum reliabilities) (py_len agent_ids);
      qualities ← each_profile interaction_quality agent_ids;
      avg_quality ← truediv (py_sum qualities) (py_len agent_ids);
      let score := (avg_reliability + avg_quality) / Qc_of_Z 2 in
      let potential := potential_of score in
      strength_lists ← each_profile strengths agent_ids;
      let all_strengths := concat strength_lists in
      let strength_counts := count_strengths all_strengths in
      let common := (filter (λ item, (1 < item.2)%Z) strength_counts).*1 in
      let unique := (filter (λ item, item.2 = 1%Z) strength_counts).*1 in
      let approach :=
        ((match common with
          | [] => []
          | _ => [("Leverage common strengths: " ++ join ", " common)%string]
          end) ++
         (match unique with
          | [] => []
          | _ => ["Assign tasks based on unique agent strengths"]
          end) ++
         (if decide (avg_reliability < decimal 5 10)
          then ["Implement verification steps to ensure reliability"]
          else []))%list in
      style_list ← each_profile collaboration_style agent_ids;
      let styles : gset string := list_to_set style_list in
      let challenges1 :=
        if decide (1 < size styles ∧ "unknown" ∉ styles)%nat
        then [style_challenge] else [] in
      reliability_values ← each_profile reliability agent_ids;
      hi ← py_max reliability_values;
      lo ← py_min reliability_values;
      let challenges :=
        (challenges1 ++
         (if decide (decimal 3 10 < hi - lo) then [reliability_challenge] else []))%list in
      profiles ← each_profile id agent_ids;
      mret (Recommendation
        {| collaboration_potential := potential;
           collaboration_score := py_round2 score;
           recommended_approach := approach;
           potential_challenges := challenges;
           common_strengths := common;
           unique_strengths := unique;
           agents := list_to_map (zip agent_ids profiles) |})
  end.

(** ** Running the tracker *)

(** A tracker that holds no profile yet, over a given file. *)
Definition empty_tracker (d : Disk) : Tracker :=
  {| trust_network := ∅; disk := d |}.

(** One [update_trust] call with its arguments. *)
Record Call : Type := mkCall {
  call_agent : string;
  call_quality : Qc;
  call_reliability : Qc;
  call_style : option string;
  call_strengths : option (list string);
  call_areas : option (list string)
}.

Definition run_call (st : Tracker) (c : Call) : Tracker * result Profile :=
  update_trust (call_agent c) (call_quality c) (call_reliability c)
    (call_style c) (call_strengths c) (call_areas c) st.

(** The tracker after a sequence of calls, each made on the state the
    previous one left behind (whether it returned or raised). *)
Definition run_calls (st : Tracker) (calls : list Call) : Tracker :=
  foldl (λ st c, (run_call st c).1) st calls.

(** ** The closed form of one [update_trust] call *)

(** The list left by the append loop: the old items, then each new item
    that is not there yet, in the order supplied. *)
Definition merge_missing (old new : list string) : list string :=
  foldl (λ acc x, if decide (x ∈ acc) then acc else (acc ++ [x])%list) old new.

(** The running average of the source, with [n] the count after the
    increment. *)
Definition running_average (old_average : Qc) (n : Z) (new_value : Qc) : Qc :=
  (old_average * Qc_of_Z (n - 1) + new_value) / Qc_of_Z n.

(** The profile an agent has after a call that returns, from the profile
    [p] it had before (or [new_profile]). *)
Definition updated_profile (p : Profile) (quality reliability_score : Qc)
    (style : option string) (new_strengths new_areas : option (list string)) : Profile :=
  let n := (interactions p + 1)%Z in
  {| interactions := n;
     reliability := running_average (reliability p) n reliability_score;
     interaction_quality := running_average (interaction_quality p) n quality;
     collaboration_style := default (collaboration_style p) (truthy_str style);
     strengths := merge_missing (strengths p) (default [] (truthy_list new_strengths));
     areas_for_growth :=
       merge_missing (areas_for_growth p) (default [] (truthy_list new_areas)) |}.

(** The profile a call starts from. *)
Definition profile_before (net : gmap string Profile) (agent_id : string) : Profile :=
  default new_profile (net !! agent_id).

(** The disk after [_save_network] wrote (or failed to write) [net]. *)
Definition disk_after_save (net : gmap string Profile) (d : Disk) : Disk :=
  match outcomes d with
  | [] => {| content := FileDoc (network_to_json net); outcomes := [] |}
  | WriteOk :: rest => {| content := FileDoc (network_to_json net); outcomes := rest |}
  | OpenFails :: rest => {| content := content d; outcomes := rest |}
  | DumpFails :: rest => {| content := FileMalformed; outcomes := rest |}
  end.

(** ** Vocabulary of the statements *)

(** The calls of a sequence that are about one agent, in order. *)
Definition calls_for (agent_id : string) (calls : list Call) : list Call :=
  filter (λ c, call_agent c = agent_id) calls.

(** The arithmetic mean of a list of numbers. *)
Definition mean (xs : list Qc) : Qc := py_sum xs / py_len xs.

(** What the map records about a sequence of calls made on an empty
    tracker: an agent has a profile exactly when it was called, and the
    profile counts its calls and averages their scores. *)
Definition tracks (calls : list Call) (net : gmap string Profile) : Prop :=
  ∀ a : string,
    let p := profile_before net a in
    let cs := calls_for a calls in
    (is_Some (net !! a) ↔ cs ≠ []) ∧
    interactions p = Z.of_nat (length cs) ∧
    reliability p = mean (call_reliability <$> cs) ∧
    interaction_quality p = mean (call_quality <$> cs).

(** The example scenario: two observations of "agent1" with one of
    "agent2" in between. *)
Definition demo_calls : list Call :=
  [ mkCall "agent1" (decimal 85 100) (decimal 92 100) (Some "analytical")
      (Some ["data analysis"]) None;
    mkCall "agent2" (decimal 1 2) (decimal 3 4) None None None;
    mkCall "agent1" (decimal 1 2) (decimal 80 100) None None None ].

(** A score in the interval [0,1]. *)
Definition in_unit (x : Qc) : Prop := 0 ≤ x ∧ x ≤ 1.

(** Both scores supplied by a call are in [0,1]. *)
Definition call_in_range (c : Call) : Prop :=
  in_unit (call_quality c) ∧ in_unit (call_reliability c).

(** Both averages of every stored profile are in [0,1]. *)
Definition scores_in_range (net : gmap string Profile) : Prop :=
  ∀ a p, net !! a = Some p → in_unit (reliability p) ∧ in_unit (interaction_quality p).

(** What the lists of the stored profiles record about a call sequence. *)
Definition lists_ok (calls : list Call) (net : gmap string Profile) : Prop :=
  ∀ a p, net !! a = Some p →
    NoDup (strengths p) ∧ NoDup (areas_for_growth p) ∧
    ∀ c, c ∈ calls_for a calls →
      default [] (call_strengths c) ⊆ strengths p ∧
      default [] (call_areas c) ⊆ areas_for_growth p.

(** The ids of a request that have no profile, in request order. *)
Definition missing (net : gmap string Profile) (agent_ids : list string) : list string :=
  filter (λ agent_id, net !! agent_id = None) agent_ids.

(** One key of the profiles of the requested agents, in request order. *)
Definition requested {A} (key : Profile → A)
    (net : gmap string Profile) (agent_ids : list string) : list A :=
  (λ agent_id, key (profile_before net agent_id)) <$> agent_ids.

(** The score before rounding. *)
Definition raw_score (net : gmap string Profile) (agent_ids : list string) : Qc :=
  (py_sum (requested reliability net agent_ids) / py_len agent_ids +
   py_sum (requested interaction_quality net agent_ids) / py_len agent_ids) / Qc_of_Z 2.

Definition strength_counts_of (net : gmap string Profile) (agent_ids : list string)
    : list (string * Z) :=
  count_strengths (concat (requested strengths net agent_ids)).

Definition styles_of (net : gmap string Profile) (agent_ids : list string) : gset string :=
  list_to_set (requested collaboration_style net agent_ids).

Definition greatest (xs : list Qc) : Qc :=
  match xs with
  | [] => 0
  | x :: rest => foldl (λ m y, if decide (m < y) then y else m) x rest
  end.

Definition least (xs : list Qc) : Qc :=
  match xs with
  | [] => 0
  | x :: rest => foldl (λ m y, if decide (y < m) then y else m) x rest
  end.

(** The recommendation returned for a non-empty request whose agents all
    have a profile. *)
Definition recommendation_of (net : gmap string Profile) (agent_ids : list string)
    : CollaborationRecommendation :=
  let reliabilities := requested reliability net agent_ids in
  let avg_reliability := py_sum reliabilities / py_len agent_ids in
  let counts := strength_counts_of net agent_ids in
  let common := (filter (λ item, (1 < item.2)%Z) counts).*1 in
  let unique := (filter (λ item, item.2 = 1%Z) counts).*1 in
  {| collaboration_potential := potential_of (raw_score net agent_ids);
     collaboration_score := py_round2 (raw_score net agent_ids);
     recommended_approach :=
       (match common with
        | [] => []
        | _ => [("Leverage common strengths: " ++ join ", " common)%string]
        end) ++
       (match unique with
        | [] => []
        | _ => ["Assign tasks based on unique agent strengths"]
        end) ++
       (if decide (avg_reliability < decimal 5 10)
        then ["Implement verification steps to ensure reliability"]
        else []);
     potential_challenges :=
       (if decide (1 < size (styles_of net agent_ids) ∧
                   "unknown" ∉ styles_of net agent_ids)%nat
        then [style_challenge] else []) ++
       (if decide (decimal 3 10 < greatest reliabilities - least reliabilities)
        then [reliability_challenge] else []);
     common_strengths := common;
     unique_strengths := unique;
     agents := list_to_map (zip agent_ids (requested id net agent_ids)) |}.

(** The tracker after the example scenario. *)
Definition demo_tracker : Tracker :=
  run_calls (empty_tracker (mkDisk FileAbsent [])) demo_calls.

(** Two agents, one observed as "analytical", one never given a style. *)
Definition mixed_styles : Tracker :=
  run_calls (empty_tracker (mkDisk FileAbsent []))
    [ mkCall "a" 1 1 (Some "analytical") None None;
      mkCall "b" 1 1 None None None ].

(** Two agents observed with two different styles. *)
Definition two_styles : Tracker :=
  run_calls (empty_tracker (mkDisk FileAbsent []))
    [ mkCall "a" 1 1 (Some "analytical") None None;
      mkCall "b" 1 1 (Some "creative") None None ].

(** The next write to the file goes through. *)
Definition write_succeeds (d : Disk) : Prop :=
  match outcomes d with
  | [] | WriteOk :: _ => True
  | _ => False
  end.

(** [strength_counts.get(k, 0)]. *)
Fixpoint count_of (k : string) (d : list (string * Z)) : Z :=
  match d with
  | [] => 0%Z
  | (k', c) :: rest => if decide (k' = k) then c else count_of k rest
  end.

(** How many times a string occurs in a list. *)
Definition occurrences (s : string) (l : list string) : nat :=
  length (filter (λ x, x = s) l).

(** An agent's stored profile lists the strength. *)
Definition has_strength (net : gmap string Profile) (agent_id s : string) : Prop :=
  ∃ p, net !! agent_id = Some p ∧ s ∈ strengths p.

(** The requested agents that list a strength, in request order. *)
Definition holders (net : gmap string Profile) (agent_ids : list string) (s : string)
    : list string :=
  filter (λ agent_id, s ∈ strengths (profile_before net agent_id)) agent_ids.

(** One agent whose profile lists the strength "x". *)
Definition one_strength : Tracker :=
  run_calls (empty_tracker (mkDisk FileAbsent []))
    [ mkCall "a" 1 1 None (Some ["x"]) None ].

(** Calls that give agent "a" two styles, then an empty one. *)
Definition style_calls : list Call :=
  [ mkCall "a" 1 1 (Some "bold") None None;
    mkCall "a" 1 1 (Some "calm") None None;
    mkCall "b" 1 1 None None None;
    mkCall "a" 1 1 (Some "") None None ].



(** ** The module-level singleton and the tool wrappers *)

(** The state of the module: the tracker objects constructed so far (each
    [TrustNetworkTracker()] has a profile map of its own; constructed
    without a path they all use the default file), the global
    [_trust_network_instance] (a reference to one of them, or [None]) and
    the default file. *)
Record Module : Type := mkModule {
  trackers : list (gmap string Profile);
  _trust_network_instance : option nat;
  data_file : Disk
}.

Definition G (A : Type) : Type := Module → Module * result A.

(** The module as the import leaves it. *)
Definition imported (d : Disk) : Module :=
  {| trackers := []; _trust_network_instance := None; data_file := d |}.

(** [TrustNetworkTracker()]: a new object, loaded from the default file. *)
Definition TrustNetworkTracker : G nat := λ m,
  match __init__ (data_file m) with
  | (t, Return _) =>
      ({| trackers := trackers m ++ [trust_network t];
          _trust_network_instance := _trust_network_instance m;
          data_file := disk t |},
       Return (length (trackers m)))
  | (t, Raise e) =>
      ({| trackers := trackers m;
          _trust_network_instance := _trust_network_instance m;
          data_file := disk t |},
       Raise e)
  end.

Definition set_instance (i : nat) (m : Module) : Module :=
  {| trackers := trackers m; _trust_network_instance := Some i; data_file := data_file m |}.

Definition get_trust_network : G nat := λ m,
  match _trust_network_instance m with
  | Some i => (m, Return i)
  | None =>
      match TrustNetworkTracker m with
      | (m', Return i) => (set_instance i m', Return i)
      | (m', Raise e) => (m', Raise e)
      end
  end.

Definition initialize_trust_network : G unit := λ m,
  match TrustNetworkTracker m with
  | (m', Return i) => (set_instance i m', Return ())
  | (m', Raise e) => (m', Raise e)
  end.

(** A method call on the tracker object [i]. *)
Definition on_tracker {A} (i : nat) (method : M A) : G A := λ m,
  match trackers m !! i with
  | Some net =>
      let (t, r) := method (mkTracker net (data_file m)) in
      ({| trackers := <[i := trust_network t]> (trackers m);
          _trust_network_instance := _trust_network_instance m;
          data_file := disk t |}, r)
  | None => (m, Raise TypeError)
  end.

(** The three tools of [create_trust_network_tools]: closures over the
    local [network]. With the stand-in [FunctionTool] of the module,
    calling a tool calls its [fn], which ignores [tool_context]. *)
Record Tools : Type := mkTools { network : nat }.

Definition create_trust_network_tools : G Tools := λ m,
  match get_trust_network m with
  | (m', Return i) => (m', Return (mkTools i))
  | (m', Raise e) => (m', Raise e)
  end.

Definition update_trust_tool (tools : Tools) (agent_id : string)
    (quality reliability_score : Qc) (style : option string)
    (new_strengths new_areas : option (list string)) : G Profile :=
  on_tracker (network tools)
    (update_trust agent_id quality reliability_score style new_strengths new_areas).

Definition get_agent_profile_tool (tools : Tools) (agent_id : string) : G ProfileReply :=
  on_tracker (network tools) (get_agent_profile agent_id).

Definition get_collaboration_recommendation_tool (tools : Tools) (agent_ids : list string)
    : G Reply :=
  on_tracker (network tools) (get_collaboration_recommendation agent_ids).

(** [get_trust_network().get_agent_profile(agent_id)]. *)
Definition singleton_profile (agent_id : string) : G ProfileReply := λ m,
  match get_trust_network m with
  | (m', Return i) => on_tracker i (get_agent_profile agent_id) m'
  | (m', Raise e) => (m', Raise e)
  end.

(** ** The averages in double precision

    Python floats are IEEE 754 binary64 numbers and CPython computes [*],
    [+] and [/] on them with the operations of the hardware, rounding to
    nearest, ties to even. Rocq's primitive [float] is the same format with
    the same operations, and a decimal literal denotes the same double in
    both. [Binary64] follows [update_trust] (lines 118-168) and the tier
    chain (lines 207-215) on these numbers, with the conversions and
    exceptions of Python's mixed int-and-float arithmetic. *)

(** Sequencing of computations that may raise. *)
Global Instance result_ret : MRet result := λ A a, Return a.

Global Instance result_bind : MBind result := λ A B f r,
  match r with
  | Return a => f a
  | Raise e => Raise e
  end.

Module Binary64.

(** A number held by a profile: the literal [0] of a fresh profile and a
    whole number read from the file are Python ints, what [update_trust]
    computes is a float. *)
Inductive Number : Type :=
  | Int (n : Z)
  | Float (x : float).

(** The magnitude from which an int has no double: halfway between the
    largest double and [2 ^ 1024]. *)
Definition int_too_large : Z := 2 ^ 1024 - 2 ^ 970.

(** The int operand of a mixed operation is converted to the nearest
    double, ties to even; when there is none the operation raises
    [OverflowError] ("int too large to convert to float"). *)
Definition float_of_int (n : Z) : result float :=
  if decide (Z.abs n < int_too_large)%Z
  then Return (SF2Prim (binary_normalize prec emax n 0 false))
  else Raise OverflowError.

(** [x * n] for a stored number [x] and an int [n]. *)
Definition mul (x : Number) (n : Z) : result Number :=
  match x with
  | Int m => Return (Int (m * n))
  | Float x => y ← float_of_int n; Return (Float (x * y)%float)
  end.

(** [x + y] for a float [y]. *)
Definition add (x : Number) (y : float) : result float :=
  match x with
  | Int m => x ← float_of_int m; Return (x + y)%float
  | Float x => Return (x + y)%float
  end.

(** [x / n] for a float [x] and an int [n]: the int is converted, then a
    zero divisor is refused (the double of an int is zero only for [0]). *)
Definition truediv (x : float) (n : Z) : result float :=
  y ← float_of_int n;
  if decide (n = 0%Z) then Raise ZeroDivisionError else Return (x / y)%float.

(** [(current * (interaction_count - 1) + score) / interaction_count],
    lines 137-139 and 143-145. *)
Definition running_average (current : Number) (interaction_count : Z) (score : float)
    : result float :=
  product ← mul current (interaction_count - 1);
  total ← add product score;
  truediv total interaction_count.

(** The profile dict, its two averages being ints or floats. *)
Record Profile : Type := mkProfile {
  interactions : Z;
  reliability : Number;
  interaction_quality : Number;
  collaboration_style : string;
  strengths : list string;
  areas_for_growth : list string
}.

(** The literal of lines 120-127: its three zeroes are ints. *)
Definition new_profile : Profile :=
  {| interactions := 0;
     reliability := Int 0;
     interaction_quality := Int 0;
     collaboration_style := "unknown";
     strengths := [];
     areas_for_growth := [] |}.

Definition set_interactions (n : Z) (p : Profile) : Profile :=
  {| interactions := n;
     reliability := reliability p;
     interaction_quality := interaction_quality p;
     collaboration_style := collaboration_style p;
     strengths := strengths p;
     areas_for_growth := areas_for_growth p |}.

Definition set_reliability (r : Number) (p : Profile) : Profile :=
  {| interactions := interactions p;
     reliability := r;
     interaction_quality := interaction_quality p;
     collaboration_style := collaboration_style p;
     strengths := strengths p;
     areas_for_growth := areas_for_growth p |}.

Definition set_interaction_quality (q : Number) (p : Profile) : Profile :=
  {| interactions := interactions p;
     reliability := reliability p;
     interaction_quality := q;
     collaboration_style := collaboration_style p;
     strengths := strengths p;
     areas_for_growth := areas_for_growth p |}.

Definition set_collaboration_style (s : string) (p : Profile) : Profile :=
  {| interactions := interactions p;
     reliability := reliability p;
     interaction_quality := interaction_quality p;
     collaboration_style := s;
     strengths := strengths p;
     areas_for_growth := areas_for_growth p |}.

Definition set_strengths (l : list string) (p : Profile) : Profile :=
  {| interactions := interactions p;
     reliability := reliability p;
     interaction_quality := interaction_quality p;
     collaboration_style := collaboration_style p;
     strengths := l;
     areas_for_growth := areas_for_growth p |}.

Definition set_areas_for_growth (l : list string) (p : Profile) : Profile :=
  {| interactions := interactions p;
     reliability := reliability p;
     interaction_quality := interaction_quality p;
     collaboration_style := collaboration_style p;
     strengths := strengths p;
     areas_for_growth := l |}.

(** What the file at [data_path] holds: nothing, text that cannot be read
    back, or the dump of a profile map. *)
Inductive FileContent : Type :=
  | FileAbsent
  | FileMalformed
  | FileDump (net : gmap string Profile).

(** The file and the outcomes of the next writes, as for the tracker
    above. *)
Record Disk : Type := mkDisk {
  content : FileContent;
  outcomes : list WriteOutcome
}.

Record Tracker : Type := mkTracker {
  trust_network : gmap string Profile;
  disk : Disk
}.

(** The state-and-exception monad of the methods. *)
Definition M (A : Type) : Type := Tracker → Tracker * result A.

Global Instance M_ret : MRet M := λ A a st, (st, Return a).

Global Instance M_bind : MBind M := λ A B f m st,
  match m st with
  | (st', Return a) => f a st'
  | (st', Raise e) => (st', Raise e)
  end.

(** The value of an expression that may raise. *)
Definition eval {A} (r : result A) : M A := λ st, (st, r).

Definition get_network : M (gmap string Profile) :=
  λ st, (st, Return (trust_network st)).

Definition put_network (net : gmap string Profile) : M unit :=
  λ st, ({| trust_network := net; disk := disk st |}, Return ()).

Definition get_disk : M Disk := λ st, (st, Return (disk st)).

Definition put_disk (d : Disk) : M unit :=
  λ st, ({| trust_network := trust_network st; disk := d |}, Return ()).

Definition try_except {A} (body : M A) (handler : exn → M A) : M A := λ st,
  match body st with
  | (st', Return a) => (st', Return a)
  | (st', Raise e) => handler e st'
  end.

(** [self.trust_network[agent_id]] as an expression. *)
Definition getitem (agent_id : string) : M Profile :=
  net ← get_network;
  match net !! agent_id with
  | Some p => mret p
  | None => eval (Raise (KeyError agent_id))
  end.

(** An assignment [agent_profile[key] = v] through the alias. *)
Definition setitem (agent_id : string) (f : Profile → Profile) : M unit :=
  p ← getitem agent_id;
  net ← get_network;
  put_network (<[agent_id := f p]> net).

(** [for x in xs: body]. *)
Fixpoint for_each {A} (xs : list A) (body : A → M unit) : M unit :=
  match xs with
  | [] => mret ()
  | x :: rest => body x ;; for_each rest body
  end.

(** [open(self.data_path, "w")] followed by [json.dump(..., f, indent=2)]. *)
Definition write_file (net : gmap string Profile) : M unit :=
  d ← get_disk;
  match outcomes d with
  | [] => put_disk {| content := FileDump net; outcomes := [] |}
  | WriteOk :: rest => put_disk {| content := FileDump net; outcomes := rest |}
  | OpenFails :: rest =>
      put_disk {| content := content d; outcomes := rest |} ;; eval (Raise OSError)
  | DumpFails :: rest =>
      put_disk {| content := FileMalformed; outcomes := rest |} ;; eval (Raise OSError)
  end.

Definition _save_network : M unit :=
  try_except
    (net ← get_network; write_file net)
    (λ _, mret ()).

Definition append_missing (agent_id : string)
    (get : Profile → list string) (set : list string → Profile → Profile)
    (new : list string) : M unit :=
  for_each new (λ x,
    agent_profile ← getitem agent_id;
    if decide (x ∈ get agent_profile) then mret ()
    else setitem agent_id (set (get agent_profile ++ [x])%list)).

(** [update_trust], lines 118-168, the two scores being floats as their
    annotation says. *)
Definition update_trust (agent_id : string)
    (quality reliability_score : float)
    (style : option string)
    (new_strengths new_areas : option (list string)) : M Profile :=
  net ← get_network;
  match net !! agent_id with
  | None => put_network (<[agent_id := new_profile]> net)
  | Some _ => mret ()
  end ;;
  agent_profile ← getitem agent_id;
  setitem agent_id (set_interactions (interactions agent_profile + 1)) ;;
  agent_profile ← getitem agent_id;
  let interaction_count := interactions agent_profile in
  let current_reliability := reliability agent_profile in
  r ← eval (running_average current_reliability interaction_count reliability_score);
  setitem agent_id (set_reliability (Float r)) ;;
  agent_profile ← getitem agent_id;
  let current_quality := interaction_quality agent_profile in
  q ← eval (running_average current_quality interaction_count quality);
  setitem agent_id (set_interaction_quality (Float q)) ;;
  match truthy_str style with
  | Some s => setitem agent_id (set_collaboration_style s)
  | None => mret ()
  end ;;
  match truthy_list new_strengths with
  | Some l => append_missing agent_id strengths set_strengths l
  | None => mret ()
  end ;;
  match truthy_list new_areas with
  | Some l => append_missing agent_id areas_for_growth set_areas_for_growth l
  | None => mret ()
  end ;;
  _save_network ;;
  getitem agent_id.

(** The [if / elif / else] chain of lines 208-215. *)
Definition potential_of (collaboration_score : float) : string :=
  if (0.8 <=? collaboration_score)%float then "very high"
  else if (0.6 <=? collaboration_score)%float then "high"
  else if (0.4 <=? collaboration_score)%float then "moderate"
  else "challenging".

(** [(avg_reliability + avg_quality) / 2], line 207. *)
Definition collaboration_score (avg_reliability avg_quality : float) : float :=
  ((avg_reliability + avg_quality) / 2)%float.

(** A tracker that holds no profile yet. *)
Definition empty_tracker (d : Disk) : Tracker :=
  {| trust_network := ∅; disk := d |}.

(** One [update_trust] call with its arguments. *)
Record Call : Type := mkCall {
  call_agent : string;
  call_quality : float;
  call_reliability : float;
  call_style : option string;
  call_strengths : option (list string);
  call_areas : option (list string)
}.

Definition run_call (st : Tracker) (c : Call) : Tracker * result Profile :=
  update_trust (call_agent c) (call_quality c) (call_reliability c)
    (call_style c) (call_strengths c) (call_areas c) st.

(** The tracker after a sequence of calls. *)
Definition run_calls (st : Tracker) (calls : list Call) : Tracker :=
  foldl (λ st c, (run_call st c).1) st calls.

(** The profile a call starts from. *)
Definition profile_before (net : gmap string Profile) (agent_id : string) : Profile :=
  default new_profile (net !! agent_id).

(** The disk after [_save_network] wrote (or failed to write) [net]. *)
Definition disk_after_save (net : gmap string Profile) (d : Disk) : Disk :=
  match outcomes d with
  | [] => {| content := FileDump net; outcomes := [] |}
  | WriteOk :: rest => {| content := FileDump net; outcomes := rest |}
  | OpenFails :: rest => {| content := content d; outcomes := rest |}
  | DumpFails :: rest => {| content := FileMalformed; outcomes := rest |}
  end.

(** The profile a returning call leaves, from the profile [p] it found (or
    created) and the two averages it computed. *)
Definition updated_profile (p : Profile) (r q : float)
    (style : option string) (new_strengths new_areas : option (list string)) : Profile :=
  {| interactions := interactions p + 1;
     reliability := Float r;
     interaction_quality := Float q;
     collaboration_style := default (collaboration_style p) (truthy_str style);
     strengths := merge_missing (strengths p) (default [] (truthy_list new_strengths));
     areas_for_growth :=
       merge_missing (areas_for_growth p) (default [] (truthy_list new_areas)) |}.

(** The calls of a sequence that are about one agent, in order. *)
Definition calls_for (agent_id : string) (calls : list Call) : list Call :=
  filter (λ c, call_agent c = agent_id) calls.



End Binary64.

(** ** Vocabulary of the statements on doubles *)

(** The rational number a double stands for; an infinity and NaN stand for
    none. *)
Definition exact (x : float) : option Qc :=
  match Prim2SF x with
  | S754_zero _ => Some 0
  | S754_finite s m e =>
      Some (Q2Qc (inject_Z (if s then Z.neg m else Z.pos m) * 2 ^ e)%Q)
  | S754_infinity _ | S754_nan => None
  end.








(** An int that has a double. *)
Definition convertible (n : Z) : Prop := (Z.abs n < Binary64.int_too_large)%Z.


(** ** Reasoning about the monad *)

Lemma bind_unfold {A B} (m : M A) (f : A → M B) (st : Tracker) :
  (m ≫= f) st =
  match m st with
  | (st', Return a) => f a st'
  | (st', Raise e) => (st', Raise e)
  end.
Proof. reflexivity. Qed.

Lemma bind_returns {A B} (m : M A) (f : A → M B) (st st' : Tracker) (a : A) :
  m st = (st', Return a) → (m ≫= f) st = f a st'.
Proof. intros H. rewrite bind_unfold, H. reflexivity. Qed.

Lemma bind_raises {A B} (m : M A) (f : A → M B) (st st' : Tracker) (e : exn) :
  m st = (st', Raise e) → (m ≫= f) st = (st', Raise e).
Proof. intros H. rewrite bind_unfold, H. reflexivity. Qed.

Lemma getitem_present (net : gmap string Profile) (d : Disk) (a : string) (p : Profile) :
  net !! a = Some p →
  getitem a (mkTracker net d) = (mkTracker net d, Return p).
Proof. intros H. unfold getitem. rewrite bind_unfold. simpl. rewrite H. reflexivity. Qed.

Lemma getitem_absent (net : gmap string Profile) (d : Disk) (a : string) :
  net !! a = None →
  getitem a (mkTracker net d) = (mkTracker net d, Raise (KeyError a)).
Proof. intros H. unfold getitem. rewrite bind_unfold. simpl. rewrite H. reflexivity. Qed.

Lemma setitem_present (net : gmap string Profile) (d : Disk) (a : string)
    (f : Profile → Profile) (p : Profile) :
  net !! a = Some p →
  setitem a f (mkTracker net d) = (mkTracker (<[a := f p]> net) d, Return ()).
Proof.
  intros H. unfold setitem.
  rewrite (bind_returns _ _ _ _ _ (getitem_present net d a p H)).
  reflexivity.
Qed.

Lemma save_network_runs (net : gmap string Profile) (d : Disk) :
  _save_network (mkTracker net d) = (mkTracker net (disk_after_save net d), Return ()).
Proof.
  unfold _save_network, try_except, write_file, disk_after_save.
  unfold mbind, M_bind, get_network, get_disk, put_disk, raise, mret, M_ret. simpl.
  destruct (outcomes d) as [|[] rest]; reflexivity.
Qed.

(** The append loop, for any list-valued key of the profile. *)
Section append_loop.

Variable get : Profile → list string.
Variable set : list string → Profile → Profile.
Hypothesis get_set : ∀ l p, get (set l p) = l.
Hypothesis set_set : ∀ l l' p, set l (set l' p) = set l p.
Hypothesis set_get : ∀ p, set (get p) p = p.

Lemma append_missing_runs (new : list string) :
  ∀ (net : gmap string Profile) (d : Disk) (a : string) (p : Profile),
    net !! a = Some p →
    append_missing a get set new (mkTracker net d) =
    (mkTracker (<[a := set (merge_missing (get p) new) p]> net) d, Return ()).
Proof.
  unfold append_missing, merge_missing.
  induction new as [|x rest IH]; intros net d a p Hp; simpl.
  - rewrite set_get, insert_id by done. reflexivity.
  - rewrite bind_unfold.
    rewrite (bind_returns _ _ _ _ _ (getitem_present net d a p Hp)).
    destruct (decide (x ∈ get p)) as [Hin|Hnin].
    + simpl. apply IH, Hp.
    + rewrite (setitem_present net d a _ p Hp).
      rewrite (IH _ d a (set (get p ++ [x]) p)) by apply lookup_insert_eq.
      rewrite get_set, set_set, insert_insert_eq. reflexivity.
Qed.

End append_loop.

Lemma truediv_nonzero (x y : Qc) (st : Tracker) :
  y ≠ 0 → truediv x y st = (st, Return (x / y)).
Proof. intros H. unfold truediv. destruct (decide (y = 0)); [done | reflexivity]. Qed.

Lemma truediv_zero (x : Qc) (st : Tracker) :
  truediv x 0 st = (st, Raise ZeroDivisionError).
Proof. unfold truediv. destruct (decide (0 = 0)); [reflexivity | done]. Qed.

Lemma Qc_of_Z_eq_0 (n : Z) : Qc_of_Z n = 0 ↔ n = 0%Z.
Proof.
  split; [|intros ->; apply Qc_is_canon; reflexivity].
  intros H. apply (f_equal this) in H. simpl in H.
  unfold inject_Z in H. inversion H. reflexivity.
Qed.

(** The initialisation branch: afterwards the agent has a profile. *)
Lemma init_profile_runs (net : gmap string Profile) (d : Disk) (a : string) :
  (match net !! a with
   | None => put_network (<[a := new_profile]> net)
   | Some _ => mret ()
   end) (mkTracker net d) =
  (mkTracker (<[a := profile_before net a]> net) d, Return ()).
Proof.
  unfold profile_before. destruct (net !! a) as [p|] eqn:Hp; simpl.
  - rewrite insert_id by done. reflexivity.
  - reflexivity.
Qed.

(** A call that finds (or creates) a profile whose count does not become
    zero returns, leaving the updated profile in the map and the map on
    disk as far as the environment allows. *)
Lemma update_trust_returns (net : gmap string Profile) (d : Disk) (a : string)
    (quality reliability_score : Qc) (style : option string)
    (new_strengths new_areas : option (list string)) :
  let p := profile_before net a in
  let p' := updated_profile p quality reliability_score style new_strengths new_areas in
  let net' := <[a := p']> net in
  (interactions p + 1)%Z ≠ 0%Z →
  update_trust a quality reliability_score style new_strengths new_areas (mkTracker net d) =
  (mkTracker net' (disk_after_save net' d), Return p').
Proof.
  intros p p' net' Hn. unfold update_trust.
  rewrite (bind_returns get_network _ _ (mkTracker net d) net) by reflexivity.
  rewrite (bind_returns _ _ _ _ _ (init_profile_runs net d a)).
  fold p.
  rewrite (bind_returns _ _ _ _ _ (getitem_present _ d a p (lookup_insert_eq _ _ _))).
  rewrite (bind_returns _ _ _ _ _ (setitem_present _ d a _ p (lookup_insert_eq _ _ _))).
  rewrite insert_insert_eq.
  rewrite (bind_returns _ _ _ _ _ (getitem_present _ d a _ (lookup_insert_eq _ _ _))).
  cbn [interactions reliability interaction_quality set_interactions].
  assert (Hq : Qc_of_Z (interactions p + 1) ≠ 0) by (rewrite Qc_of_Z_eq_0; done).
  rewrite (bind_returns _ _ _ _ _ (truediv_nonzero _ _ _ Hq)).
  rewrite (bind_returns _ _ _ _ _ (setitem_present _ d a _ _ (lookup_insert_eq _ _ _))).
  rewrite insert_insert_eq.
  rewrite (bind_returns _ _ _ _ _ (getitem_present _ d a _ (lookup_insert_eq _ _ _))).
  cbn [interactions reliability interaction_quality set_interactions set_reliability].
  rewrite (bind_returns _ _ _ _ _ (truediv_nonzero _ _ _ Hq)).
  rewrite (bind_returns _ _ _ _ _ (setitem_present _ d a _ _ (lookup_insert_eq _ _ _))).
  rewrite insert_insert_eq.
  cbn [interactions reliability interaction_quality collaboration_style strengths
       areas_for_growth set_interactions set_reliability set_interaction_quality].
  match goal with |- context [mkTracker (<[a := ?q]> net) d] => set (p3 := q) end.
  assert (Hstyle :
    (match truthy_str style with
     | Some s => setitem a (set_collaboration_style s)
     | None => mret ()
     end) (mkTracker (<[a := p3]> net) d) =
    (mkTracker (<[a := set_collaboration_style
                         (default (collaboration_style p) (truthy_str style)) p3]> net) d,
     Return ())).
  { destruct (truthy_str style) as [s|]; simpl.
    - rewrite (setitem_present _ d a _ _ (lookup_insert_eq _ _ _)).
      rewrite insert_insert_eq. reflexivity.
    - reflexivity. }
  rewrite (bind_returns _ _ _ _ _ Hstyle). clear Hstyle.
  set (p4 := set_collaboration_style _ p3).
  assert (Hstr :
    (match truthy_list new_strengths with
     | Some l => append_missing a strengths set_strengths l
     | None => mret ()
     end) (mkTracker (<[a := p4]> net) d) =
    (mkTracker (<[a := set_strengths
                         (merge_missing (strengths p4) (default [] (truthy_list new_strengths)))
                         p4]> net) d,
     Return ())).
  { destruct (truthy_list new_strengths) as [l|]; simpl.
    - rewrite (append_missing_runs strengths set_strengths) with (p := p4);
        [|done|done|by intros []|apply lookup_insert_eq].
      rewrite insert_insert_eq. reflexivity.
    - reflexivity. }
  rewrite (bind_returns _ _ _ _ _ Hstr). clear Hstr.
  set (p5 := set_strengths _ p4).
  assert (Har :
    (match truthy_list new_areas with
     | Some l => append_missing a areas_for_growth set_areas_for_growth l
     | None => mret ()
     end) (mkTracker (<[a := p5]> net) d) =
    (mkTracker (<[a := set_areas_for_growth
                         (merge_missing (areas_for_growth p5) (default [] (truthy_list new_areas)))
                         p5]> net) d,
     Return ())).
  { destruct (truthy_list new_areas) as [l|]; simpl.
    - rewrite (append_missing_runs areas_for_growth set_areas_for_growth) with (p := p5);
        [|done|done|by intros []|apply lookup_insert_eq].
      rewrite insert_insert_eq. reflexivity.
    - reflexivity. }
  rewrite (bind_returns _ _ _ _ _ Har). clear Har.
  rewrite (bind_returns _ _ _ _ _ (save_network_runs _ d)).
  rewrite (getitem_present _ _ a _ (lookup_insert_eq _ _ _)).
  reflexivity.
Qed.

(** A call on a profile whose count becomes zero raises at the first
    division: the count is already stored, nothing else is, and nothing is
    written. *)
Lemma update_trust_raises (net : gmap string Profile) (d : Disk) (a : string)
    (quality reliability_score : Qc) (style : option string)
    (new_strengths new_areas : option (list string)) :
  let p := profile_before net a in
  (interactions p + 1)%Z = 0%Z →
  update_trust a quality reliability_score style new_strengths new_areas (mkTracker net d) =
  (mkTracker (<[a := set_interactions 0 p]> net) d, Raise ZeroDivisionError).
Proof.
  intros p Hn. unfold update_trust.
  rewrite (bind_returns get_network _ _ (mkTracker net d) net) by reflexivity.
  rewrite (bind_returns _ _ _ _ _ (init_profile_runs net d a)).
  fold p.
  rewrite (bind_returns _ _ _ _ _ (getitem_present _ d a p (lookup_insert_eq _ _ _))).
  rewrite (bind_returns _ _ _ _ _ (setitem_present _ d a _ p (lookup_insert_eq _ _ _))).
  rewrite insert_insert_eq.
  rewrite (bind_returns _ _ _ _ _ (getitem_present _ d a _ (lookup_insert_eq _ _ _))).
  cbn [interactions reliability interaction_quality set_interactions].
  rewrite Hn.
  replace (Qc_of_Z 0) with (0 : Qc) by (symmetry; apply Z2Qc_inj_0).
  rewrite (bind_raises _ _ _ _ _ (truediv_zero _ _)).
  reflexivity.
Qed.

(** ** Sequences of calls *)

Lemma run_calls_snoc (st : Tracker) (calls : list Call) (c : Call) :
  run_calls st (calls ++ [c]) = (run_call (run_calls st calls) c).1.
Proof. unfold run_calls. rewrite foldl_app. reflexivity. Qed.

Lemma calls_for_snoc_same (calls : list Call) (c : Call) :
  calls_for (call_agent c) (calls ++ [c]) = (calls_for (call_agent c) calls ++ [c])%list.
Proof.
  unfold calls_for. rewrite filter_app. f_equal.
  rewrite filter_cons_True by done. reflexivity.
Qed.

Lemma calls_for_snoc_other (a : string) (calls : list Call) (c : Call) :
  call_agent c ≠ a → calls_for a (calls ++ [c]) = calls_for a calls.
Proof.
  intros H. unfold calls_for. rewrite filter_app.
  rewrite (filter_cons_False _ c) by done. simpl. apply app_nil_r.
Qed.

Lemma py_sum_snoc (xs : list Qc) (x : Qc) : py_sum (xs ++ [x]) = py_sum xs + x.
Proof. unfold py_sum. rewrite foldl_app. reflexivity. Qed.

Lemma py_len_snoc {A} (xs : list A) (x : A) : py_len (xs ++ [x]) = py_len xs + 1.
Proof.
  unfold py_len. rewrite length_app. simpl.
  replace (Z.of_nat (length xs + 1)) with (Z.of_nat (length xs) + 1)%Z by lia.
  rewrite Z2Qc_inj_add, Z2Qc_inj_1. reflexivity.
Qed.

Lemma py_len_nil_iff {A} (xs : list A) : py_len xs = 0 ↔ xs = [].
Proof.
  unfold py_len. rewrite Qc_of_Z_eq_0. split.
  - intros H. destruct xs as [|x xs]; [done|]. simpl length in H. exfalso. lia.
  - intros ->. reflexivity.
Qed.

Lemma py_len_nonneg {A} (xs : list A) : 0 ≤ py_len xs.
Proof.
  unfold py_len.
  pose proof (proj1 (Z2Qc_inj_le 0 (Z.of_nat (length xs)))) as H.
  rewrite Z2Qc_inj_0 in H. apply H. lia.
Qed.

(** One step of the running average keeps the mean. *)
Lemma running_average_mean (xs : list Qc) (x : Qc) :
  running_average (mean xs) (Z.of_nat (length xs) + 1) x = mean (xs ++ [x]).
Proof.
  unfold running_average, mean.
  rewrite py_sum_snoc, py_len_snoc.
  replace (Z.of_nat (length xs) + 1 - 1)%Z with (Z.of_nat (length xs)) by lia.
  rewrite Z2Qc_inj_add, Z2Qc_inj_1. fold (py_len xs).
  assert (Hpos : py_len xs + 1 ≠ 0).
  { intros H. pose proof (py_len_nonneg xs) as Hle.
    assert (Hlt : (0 : Qc) < py_len xs + 1).
    { apply Qcle_lt_trans with (py_len xs); [done|].
      rewrite <- (Qcplus_0_r (py_len xs)) at 1.
      rewrite <- Qcplus_lt_mono_l. done. }
    rewrite H in Hlt. by apply Qclt_not_eq in Hlt. }
  destruct (decide (py_len xs = 0)) as [H0|H0].
  - apply py_len_nil_iff in H0 as ->. unfold py_len, py_sum. simpl.
    unfold Qcdiv. rewrite !Qcmult_0_l. reflexivity.
  - f_equal. field. done.
Qed.

Lemma mean_nil : mean [] = 0.
Proof. unfold mean, Qcdiv. apply Qcmult_0_l. Qed.

Lemma tracks_empty : tracks [] ∅.
Proof.
  intros a. unfold profile_before. rewrite lookup_empty. simpl.
  rewrite mean_nil. split; [|done].
  split; [intros [? ?]; done | done].
Qed.

Lemma tracks_count_nonzero (calls : list Call) (net : gmap string Profile) (a : string) :
  tracks calls net → (interactions (profile_before net a) + 1)%Z ≠ 0%Z.
Proof. intros H. destruct (H a) as (_ & Hn & _). rewrite Hn. lia. Qed.

Lemma profile_before_insert_eq (net : gmap string Profile) (a : string) (p : Profile) :
  profile_before (<[a := p]> net) a = p.
Proof. unfold profile_before. rewrite lookup_insert_eq. reflexivity. Qed.

Lemma profile_before_insert_ne (net : gmap string Profile) (a b : string) (p : Profile) :
  a ≠ b → profile_before (<[a := p]> net) b = profile_before net b.
Proof. intros H. unfold profile_before. rewrite lookup_insert_ne by done. reflexivity. Qed.

Lemma tracks_step (calls : list Call) (net : gmap string Profile) (c : Call) :
  tracks calls net →
  tracks (calls ++ [c])
    (<[call_agent c :=
         updated_profile (profile_before net (call_agent c)) (call_quality c)
           (call_reliability c) (call_style c) (call_strengths c) (call_areas c)]> net).
Proof.
  intros H a. destruct (H a) as (Hdom & Hn & Hr & Hq). cbv zeta.
  destruct (decide (call_agent c = a)) as [<-|Hne].
  - rewrite profile_before_insert_eq, lookup_insert_eq. simpl.
    rewrite calls_for_snoc_same, !fmap_app, length_app. simpl.
    rewrite Hn, Hr, Hq.
    rewrite <- !running_average_mean, !length_fmap.
    split; [|split; [lia|done]].
    split; [intros _; by destruct (calls_for _ calls) | eauto].
  - rewrite profile_before_insert_ne, lookup_insert_ne by done.
    rewrite calls_for_snoc_other by done.
    auto.
Qed.

Lemma run_call_returns (calls : list Call) (net : gmap string Profile) (d : Disk) (c : Call) :
  tracks calls net →
  let p' := updated_profile (profile_before net (call_agent c)) (call_quality c)
              (call_reliability c) (call_style c) (call_strengths c) (call_areas c) in
  let net' := <[call_agent c := p']> net in
  run_call (mkTracker net d) c = (mkTracker net' (disk_after_save net' d), Return p').
Proof.
  intros H. unfold run_call. apply update_trust_returns.
  by eapply tracks_count_nonzero.
Qed.

Lemma run_calls_tracks (d : Disk) (calls : list Call) :
  tracks calls (trust_network (run_calls (empty_tracker d) calls)).
Proof.
  induction calls as [|c calls IH] using rev_ind.
  - apply tracks_empty.
  - rewrite run_calls_snoc.
    destruct (run_calls (empty_tracker d) calls) as [net d'].
    rewrite (run_call_returns calls net d' c IH). simpl.
    by apply tracks_step.
Qed.

(** Induction over the trackers reachable from an empty one: a property of
    the call sequence and the map that holds at the start and is kept by
    every returning call holds after every sequence. *)
Lemma run_calls_ind (I : list Call → gmap string Profile → Prop) :
  I [] ∅ →
  (∀ calls net c,
     tracks calls net → I calls net →
     I (calls ++ [c])
       (<[call_agent c :=
            updated_profile (profile_before net (call_agent c)) (call_quality c)
              (call_reliability c) (call_style c) (call_strengths c) (call_areas c)]> net)) →
  ∀ d calls, I calls (trust_network (run_calls (empty_tracker d) calls)).
Proof.
  intros Hbase Hstep d calls.
  induction calls as [|c calls IH] using rev_ind; [exact Hbase|].
  pose proof (run_calls_tracks d calls) as Htr.
  rewrite run_calls_snoc.
  destruct (run_calls (empty_tracker d) calls) as [net d'].
  rewrite (run_call_returns calls net d' c Htr). simpl.
  by apply Hstep.
Qed.

(** ** Reasoning about the double-precision model *)

Lemma b64_bind_returns {A B} (m : Binary64.M A) (f : A → Binary64.M B)
    (st st' : Binary64.Tracker) (a : A) :
  m st = (st', Return a) → (m ≫= f) st = f a st'.
Proof. intros H. unfold mbind, Binary64.M_bind. rewrite H. reflexivity. Qed.

Lemma b64_bind_raises {A B} (m : Binary64.M A) (f : A → Binary64.M B)
    (st st' : Binary64.Tracker) (e : exn) :
  m st = (st', Raise e) → (m ≫= f) st = (st', Raise e).
Proof. intros H. unfold mbind, Binary64.M_bind. rewrite H. reflexivity. Qed.

Lemma b64_getitem_present (net : gmap string Binary64.Profile) (d : Binary64.Disk)
    (a : string) (p : Binary64.Profile) :
  net !! a = Some p →
  Binary64.getitem a (Binary64.mkTracker net d) = (Binary64.mkTracker net d, Return p).
Proof.
  intros H. unfold Binary64.getitem, mbind, Binary64.M_bind, Binary64.get_network.
  simpl. rewrite H. reflexivity.
Qed.

Lemma b64_setitem_present (net : gmap string Binary64.Profile) (d : Binary64.Disk)
    (a : string) (f : Binary64.Profile → Binary64.Profile) (p : Binary64.Profile) :
  net !! a = Some p →
  Binary64.setitem a f (Binary64.mkTracker net d)
  = (Binary64.mkTracker (<[a := f p]> net) d, Return ()).
Proof.
  intros H. unfold Binary64.setitem.
  rewrite (b64_bind_returns _ _ _ _ _ (b64_getitem_present net d a p H)).
  reflexivity.
Qed.

Lemma b64_save_network_runs (net : gmap string Binary64.Profile) (d : Binary64.Disk) :
  Binary64._save_network (Binary64.mkTracker net d)
  = (Binary64.mkTracker net (Binary64.disk_after_save net d), Return ()).
Proof.
  unfold Binary64._save_network, Binary64.try_except, Binary64.write_file,
    Binary64.disk_after_save.
  unfold mbind, Binary64.M_bind, Binary64.get_network, Binary64.get_disk,
    Binary64.put_disk, Binary64.eval, mret, Binary64.M_ret. simpl.
  destruct (Binary64.outcomes d) as [|[] rest]; reflexivity.
Qed.

Section b64_append_loop.

Variable get : Binary64.Profile → list string.
Variable set : list string → Binary64.Profile → Binary64.Profile.
Hypothesis get_set : ∀ l p, get (set l p) = l.
Hypothesis set_set : ∀ l l' p, set l (set l' p) = set l p.
Hypothesis set_get : ∀ p, set (get p) p = p.

Lemma b64_append_missing_runs (new : list string) :
  ∀ (net : gmap string Binary64.Profile) (d : Binary64.Disk) (a : string)
    (p : Binary64.Profile),
    net !! a = Some p →
    Binary64.append_missing a get set new (Binary64.mkTracker net d) =
    (Binary64.mkTracker (<[a := set (merge_missing (get p) new) p]> net) d, Return ()).
Proof.
  unfold Binary64.append_missing, merge_missing.
  induction new as [|x rest IH]; intros net d a p Hp; simpl.
  - rewrite set_get, insert_id by done. reflexivity.
  - unfold mbind at 1. unfold Binary64.M_bind at 1.
    rewrite (b64_bind_returns _ _ _ _ _ (b64_getitem_present net d a p Hp)).
    destruct (decide (x ∈ get p)) as [Hin|Hnin].
    + simpl. apply IH, Hp.
    + rewrite (b64_setitem_present net d a _ p Hp).
      rewrite (IH _ d a (set (get p ++ [x]) p)) by apply lookup_insert_eq.
      rewrite get_set, set_set, insert_insert_eq. reflexivity.
Qed.

End b64_append_loop.

Lemma b64_init_profile_runs (net : gmap string Binary64.Profile) (d : Binary64.Disk)
    (a : string) :
  (match net !! a with
   | None => Binary64.put_network (<[a := Binary64.new_profile]> net)
   | Some _ => mret ()
   end) (Binary64.mkTracker net d) =
  (Binary64.mkTracker (<[a := Binary64.profile_before net a]> net) d, Return ()).
Proof.
  unfold Binary64.profile_before. destruct (net !! a) as [p|] eqn:Hp; simpl.
  - rewrite insert_id by done. reflexivity.
  - reflexivity.
Qed.

(** The closed form of one call: it raises what the first of its two
    running averages raises, with the count already stored (and the new
    reliability, when the second one raises); otherwise it returns the
    profile it stored and saved. *)
Lemma b64_update_trust_runs (net : gmap string Binary64.Profile) (d : Binary64.Disk)
    (a : string) (quality reliability_score : float) (style : option string)
    (new_strengths new_areas : option (list string)) :
  let p := Binary64.profile_before net a in
  let n := (Binary64.interactions p + 1)%Z in
  Binary64.update_trust a quality reliability_score style new_strengths new_areas
    (Binary64.mkTracker net d) =
  match Binary64.running_average (Binary64.reliability p) n reliability_score with
  | Raise e =>
      (Binary64.mkTracker (<[a := Binary64.set_interactions n p]> net) d, Raise e)
  | Return r =>
      match Binary64.running_average (Binary64.interaction_quality p) n quality with
      | Raise e =>
          (Binary64.mkTracker
             (<[a := Binary64.set_reliability (Binary64.Float r)
                       (Binary64.set_interactions n p)]> net) d,
           Raise e)
      | Return q =>
          let p' := Binary64.updated_profile p r q style new_strengths new_areas in
          let net' := <[a := p']> net in
          (Binary64.mkTracker net' (Binary64.disk_after_save net' d), Return p')
      end
  end.
Proof.
  intros p n. unfold Binary64.update_trust.
  rewrite (b64_bind_returns Binary64.get_network _ _ (Binary64.mkTracker net d) net)
    by reflexivity.
  rewrite (b64_bind_returns _ _ _ _ _ (b64_init_profile_runs net d a)).
  fold p.
  rewrite (b64_bind_returns _ _ _ _ _
             (b64_getitem_present _ d a p (lookup_insert_eq _ _ _))).
  rewrite (b64_bind_returns _ _ _ _ _
             (b64_setitem_present _ d a _ p (lookup_insert_eq _ _ _))).
  rewrite insert_insert_eq.
  rewrite (b64_bind_returns _ _ _ _ _
             (b64_getitem_present _ d a _ (lookup_insert_eq _ _ _))).
  cbn [Binary64.interactions Binary64.reliability Binary64.interaction_quality
       Binary64.set_interactions].
  fold n.
  destruct (Binary64.running_average (Binary64.reliability p) n reliability_score)
    as [r|e]; [|reflexivity].
  rewrite (b64_bind_returns (Binary64.eval (Return r)) _ _ _ r) by reflexivity.
  rewrite (b64_bind_returns _ _ _ _ _
             (b64_setitem_present _ d a _ _ (lookup_insert_eq _ _ _))).
  rewrite insert_insert_eq.
  rewrite (b64_bind_returns _ _ _ _ _
             (b64_getitem_present _ d a _ (lookup_insert_eq _ _ _))).
  cbn [Binary64.interactions Binary64.reliability Binary64.interaction_quality
       Binary64.set_interactions Binary64.set_reliability].
  destruct (Binary64.running_average (Binary64.interaction_quality p) n quality)
    as [q|e]; [|reflexivity].
  rewrite (b64_bind_returns (Binary64.eval (Return q)) _ _ _ q) by reflexivity.
  rewrite (b64_bind_returns _ _ _ _ _
             (b64_setitem_present _ d a _ _ (lookup_insert_eq _ _ _))).
  rewrite insert_insert_eq.
  cbn [Binary64.interactions Binary64.reliability Binary64.interaction_quality
       Binary64.collaboration_style Binary64.strengths Binary64.areas_for_growth
       Binary64.set_interactions Binary64.set_reliability
       Binary64.set_interaction_quality].
  match goal with
  | |- context [Binary64.mkTracker (<[a := ?x]> net) d] => set (p3 := x)
  end.
  assert (Hstyle :
    (match truthy_str style with
     | Some s => Binary64.setitem a (Binary64.set_collaboration_style s)
     | None => mret ()
     end) (Binary64.mkTracker (<[a := p3]> net) d) =
    (Binary64.mkTracker
       (<[a := Binary64.set_collaboration_style
                 (default (Binary64.collaboration_style p) (truthy_str style)) p3]> net) d,
     Return ())).
  { destruct (truthy_str style) as [s|]; simpl.
    - rewrite (b64_setitem_present _ d a _ _ (lookup_insert_eq _ _ _)).
      rewrite insert_insert_eq. reflexivity.
    - reflexivity. }
  rewrite (b64_bind_returns _ _ _ _ _ Hstyle). clear Hstyle.
  set (p4 := Binary64.set_collaboration_style _ p3).
  assert (Hstr :
    (match truthy_list new_strengths with
     | Some l => Binary64.append_missing a Binary64.strengths Binary64.set_strengths l
     | None => mret ()
     end) (Binary64.mkTracker (<[a := p4]> net) d) =
    (Binary64.mkTracker
       (<[a := Binary64.set_strengths
                 (merge_missing (Binary64.strengths p4)
                    (default [] (truthy_list new_strengths))) p4]> net) d,
     Return ())).
  { destruct (truthy_list new_strengths) as [l|]; simpl.
    - rewrite (b64_append_missing_runs Binary64.strengths Binary64.set_strengths)
        with (p := p4); [|done|done|by intros []|apply lookup_insert_eq].
      rewrite insert_insert_eq. reflexivity.
    - reflexivity. }
  rewrite (b64_bind_returns _ _ _ _ _ Hstr). clear Hstr.
  set (p5 := Binary64.set_strengths _ p4).
  assert (Har :
    (match truthy_list new_areas with
     | Some l =>
         Binary64.append_missing a Binary64.areas_for_growth Binary64.set_areas_for_growth l
     | None => mret ()
     end) (Binary64.mkTracker (<[a := p5]> net) d) =
    (Binary64.mkTracker
       (<[a := Binary64.set_areas_for_growth
                 (merge_missing (Binary64.areas_for_growth p5)
                    (default [] (truthy_list new_areas))) p5]> net) d,
     Return ())).
  { destruct (truthy_list new_areas) as [l|]; simpl.
    - rewrite (b64_append_missing_runs Binary64.areas_for_growth
                 Binary64.set_areas_for_growth)
        with (p := p5); [|done|done|by intros []|apply lookup_insert_eq].
      rewrite insert_insert_eq. reflexivity.
    - reflexivity. }
  rewrite (b64_bind_returns _ _ _ _ _ Har). clear Har.
  rewrite (b64_bind_returns _ _ _ _ _ (b64_save_network_runs _ d)).
  rewrite (b64_getitem_present _ _ a _ (lookup_insert_eq _ _ _)).
  reflexivity.
Qed.

(** ** The running average in double precision *)

Lemma int_too_large_pos : (0 < Binary64.int_too_large)%Z.
Proof. reflexivity. Qed.

Lemma float_of_int_returns (n : Z) :
  convertible n → ∃ x, Binary64.float_of_int n = Return x.
Proof.
  intros H. unfold Binary64.float_of_int. rewrite decide_True by exact H. eauto.
Qed.

Lemma float_of_int_raises (n : Z) (e : exn) :
  Binary64.float_of_int n = Raise e → e = OverflowError ∧ ¬ convertible n.
Proof.
  unfold Binary64.float_of_int. case_decide; [done|]. by intros [= <-].
Qed.

Lemma float_of_int_overflows (n : Z) :
  ¬ convertible n → Binary64.float_of_int n = Raise OverflowError.
Proof. intros H. unfold Binary64.float_of_int. by rewrite decide_False. Qed.

(** The running average of a stored double: the rule, in doubles. *)
Lemma running_average_float (x : float) (n : Z) (score : float) :
  convertible (n - 1) → convertible n → n ≠ 0%Z →
  ∃ c1 c2,
    Binary64.float_of_int (n - 1) = Return c1 ∧
    Binary64.float_of_int n = Return c2 ∧
    Binary64.running_average (Binary64.Float x) n score
      = Return ((x * c1 + score) / c2)%float.
Proof.
  intros H1 H2 Hn.
  destruct (float_of_int_returns _ H1) as [c1 Hc1].
  destruct (float_of_int_returns _ H2) as [c2 Hc2].
  exists c1, c2. split; [done|]. split; [done|].
  unfold Binary64.running_average, Binary64.mul, Binary64.add, Binary64.truediv.
  rewrite Hc1, Hc2. cbn. by rewrite decide_False.
Qed.

(** The first running average of a fresh profile. *)
Lemma running_average_first (score : float) :
  Binary64.running_average (Binary64.Int 0) 1 score = Return ((0 + score) / 1)%float.
Proof. reflexivity. Qed.

(** A running average raises nothing but [ZeroDivisionError], at a count
    of zero, and [OverflowError]. *)
Lemma running_average_raises (current : Binary64.Number) (n : Z) (score : float) (e : exn) :
  Binary64.running_average current n score = Raise e →
  (e = ZeroDivisionError ∧ n = 0%Z) ∨ e = OverflowError.
Proof.
  unfold Binary64.running_average, Binary64.mul, Binary64.add, Binary64.truediv.
  destruct current as [m|x]; cbn.
  - destruct (Binary64.float_of_int (m * (n - 1))) as [y|e1] eqn:H1; cbn.
    + destruct (Binary64.float_of_int n) as [c|e2] eqn:H2; cbn.
      * case_decide; [|done]. intros [= <-]. by left.
      * intros [= <-]. right. by apply float_of_int_raises in H2 as [-> _].
    + intros [= <-]. right. by apply float_of_int_raises in H1 as [-> _].
  - destruct (Binary64.float_of_int (n - 1)) as [y|e1] eqn:H1; cbn.
    + destruct (Binary64.float_of_int n) as [c|e2] eqn:H2; cbn.
      * case_decide; [|done]. intros [= <-]. by left.
      * intros [= <-]. right. by apply float_of_int_raises in H2 as [-> _].
    + intros [= <-]. right. by apply float_of_int_raises in H1 as [-> _].
Qed.

(** On a stored double, the division by a count of zero is reached. *)
Lemma running_average_float_zero (x : float) (score : float) :
  Binary64.running_average (Binary64.Float x) 0 score = Raise ZeroDivisionError.
Proof. reflexivity. Qed.

Lemma running_average_float_overflows (x : float) (n : Z) (score : float) :
  ¬ convertible (n - 1) ∨ ¬ convertible n →
  Binary64.running_average (Binary64.Float x) n score = Raise OverflowError.
Proof.
  intros H. unfold Binary64.running_average, Binary64.mul, Binary64.add, Binary64.truediv.
  destruct (decide (convertible (n - 1))) as [H1|H1].
  - destruct H as [H|H]; [done|].
    destruct (float_of_int_returns _ H1) as [c1 ->]. cbn.
    by rewrite (float_of_int_overflows _ H).
  - by rewrite (float_of_int_overflows _ H1).
Qed.










(** ** When no update rounds, the running average is the mean *)






(** ** The exceptions of [update_trust] *)

(** X3. The exceptions of [update_trust]. It raises nothing but
    [ZeroDivisionError], and this only when the stored count of the agent
    is -1 (a value only a loaded file can hold), and [OverflowError]. On a
    profile whose averages are floats: at the count -1 it raises
    [ZeroDivisionError], the count 0 being already stored and the rest of
    the profile and the file untouched; at a count too large to convert to
    a float it raises [OverflowError], the incremented count being already
    stored; at every other count it returns the profile it stored. For an
    agent without a profile it returns a profile of count 1. *)
Theorem update_trust_exceptions
    (net : gmap string Binary64.Profile) (d : Binary64.Disk) (a : string)
    (quality reliability_score : float) (style : option string)
    (new_strengths new_areas : option (list string)) :
  let p := Binary64.profile_before net a in
  let count := Binary64.interactions p in
  let out := Binary64.update_trust a quality reliability_score style new_strengths new_areas
               (Binary64.mkTracker net d) in
  (∀ e, out.2 = Raise e → (e = ZeroDivisionError ∧ count = (-1)%Z) ∨ e = OverflowError) ∧
  (∀ x y : float,
     Binary64.reliability p = Binary64.Float x →
     Binary64.interaction_quality p = Binary64.Float y →
     (count = (-1)%Z →
        out = (Binary64.mkTracker (<[a := Binary64.set_interactions 0 p]> net) d,
               Raise ZeroDivisionError)) ∧
     (¬ convertible count ∨ ¬ convertible (count + 1) →
        out = (Binary64.mkTracker (<[a := Binary64.set_interactions (count + 1) p]> net) d,
               Raise OverflowError)) ∧
     (count ≠ (-1)%Z → convertible count → convertible (count + 1) →
        ∃ p', out.2 = Return p' ∧
              Binary64.trust_network out.1 !! a = Some p' ∧
              Binary64.interactions p' = (count + 1)%Z)) ∧
  (net !! a = None →
     ∃ p', out.2 = Return p' ∧
           Binary64.trust_network out.1 !! a = Some p' ∧
           Binary64.interactions p' = 1%Z).
Proof.
  intros p count out. subst out. rewrite b64_update_trust_runs. cbv zeta.
  fold p. fold count.
  split; [|split].
  - intros e.
    destruct (Binary64.running_average (Binary64.reliability p) (count + 1) reliability_score)
      as [r|e1] eqn:Hr.
    + destruct (Binary64.running_average (Binary64.interaction_quality p) (count + 1) quality)
        as [q|e2] eqn:Hq; [done|].
      intros [= <-]. apply running_average_raises in Hq as [[He Hn]|He]; [left|by right].
      split; [done|lia].
    + intros [= <-]. apply running_average_raises in Hr as [[He Hn]|He]; [left|by right].
      split; [done|lia].
  - intros x y -> ->. split; [|split].
    + intros ->. change (-1 + 1)%Z with 0%Z. by rewrite running_average_float_zero.
    + intros H. rewrite running_average_float_overflows; [done|].
      by replace (count + 1 - 1)%Z with count by lia.
    + intros Hn Hc Hc1.
      destruct (running_average_float x (count + 1) reliability_score)
        as (c1 & c2 & _ & _ & ->);
        [by replace (count + 1 - 1)%Z with count by lia | done | lia |].
      destruct (running_average_float y (count + 1) quality)
        as (c1' & c2' & _ & _ & ->);
        [by replace (count + 1 - 1)%Z with count by lia | done | lia |].
      cbn [fst snd Binary64.trust_network]. rewrite lookup_insert_eq.
      eexists. split; [reflexivity|]. split; reflexivity.
  - intros Hnone. subst count p. unfold Binary64.profile_before. rewrite Hnone.
    cbn [default Binary64.new_profile Binary64.interactions Binary64.reliability
         Binary64.interaction_quality]. 
    change (0 + 1)%Z with 1%Z. rewrite !running_average_first.
    cbn [fst snd Binary64.trust_network]. rewrite lookup_insert_eq.
    eexists. split; [reflexivity|]. split; reflexivity.
Qed.

(** ** Scores stay in the unit interval *)

Lemma Qc_of_Z_nonneg (n : Z) : (0 ≤ n)%Z → 0 ≤ Qc_of_Z n.
Proof.
  intros Hn. pose proof (proj1 (Z2Qc_inj_le 0 n) Hn) as H.
  by rewrite Z2Qc_inj_0 in H.
Qed.

Lemma running_average_in_unit (old : Qc) (n : Z) (x : Qc) :
  (1 ≤ n)%Z → in_unit old → in_unit x → in_unit (running_average old n x).
Proof.
  intros Hn [Ho0 Ho1] [Hx0 Hx1]. unfold running_average.
  set (k := Qc_of_Z (n - 1)).
  assert (Hk : 0 ≤ k).
  { apply Qc_of_Z_nonneg. lia. }
  assert (Hden : Qc_of_Z n = k + 1).
  { unfold k. transitivity (Qc_of_Z (n - 1 + 1)); [f_equal; lia|].
    by rewrite Z2Qc_inj_add, Z2Qc_inj_1. }
  rewrite Hden.
  assert (Hpos : 0 < k + 1) by (apply Qcplus_nonneg_pos; done).
  assert (Hne : k + 1 ≠ 0) by (intros E; rewrite E in Hpos; by apply Qclt_not_eq in Hpos).
  assert (Hnum0 : 0 ≤ old * k + x).
  { apply Qcplus_nonneg_nonneg; [by apply Qcmult_nonneg_nonneg | done]. }
  assert (Hnum1 : old * k + x ≤ k + 1).
  { apply Qcplus_le_compat; [|done].
    rewrite <- (Qcmult_1_l k) at 2. by apply Qcmult_le_mono_nonneg_r. }
  assert (Hmul : (old * k + x) / (k + 1) * (k + 1) = old * k + x) by (field; done).
  split.
  - apply (Qcmult_le_mono_pos_r _ _ (k + 1) Hpos).
    rewrite Hmul, Qcmult_0_l. done.
  - apply (Qcmult_le_mono_pos_r _ _ (k + 1) Hpos).
    rewrite Hmul, Qcmult_1_l. done.
Qed.

Lemma new_profile_in_unit :
  in_unit (reliability new_profile) ∧ in_unit (interaction_quality new_profile).
Proof. by vm_compute. Qed.

Lemma scores_in_range_reachable (d : Disk) (calls : list Call) :
  Forall call_in_range calls →
  scores_in_range (trust_network (run_calls (empty_tracker d) calls)).
Proof.
  revert d calls.
  apply (run_calls_ind (λ calls net, Forall call_in_range calls → scores_in_range net)).
  - intros _ a p Hp. by rewrite lookup_empty in Hp.
  - intros calls net c Htr IH Hall a p.
    apply Forall_app in Hall as [Hall Hc]. apply Forall_singleton in Hc as [Hq Hr].
    specialize (IH Hall).
    destruct (decide (call_agent c = a)) as [<-|Hne].
    + rewrite lookup_insert_eq. intros [= <-]. simpl.
      assert (Hold : in_unit (reliability (profile_before net (call_agent c))) ∧
                     in_unit (interaction_quality (profile_before net (call_agent c)))).
      { unfold profile_before.
        destruct (net !! call_agent c) as [q|] eqn:Hq0; simpl;
          [by eapply IH | apply new_profile_in_unit]. }
      destruct (Htr (call_agent c)) as (_ & Hn & _).
      split; apply running_average_in_unit; try tauto; lia.
    + rewrite lookup_insert_ne by done. apply IH.
Qed.

(** C5. Range invariant: on a tracker reached from an empty one by calls
    whose two scores lie in [0,1], one more such call leaves the
    reliability and the interaction quality of every stored profile in
    [0,1] (and they were in [0,1] before it). *)
Theorem update_trust_keeps_scores_in_range (d : Disk) (calls : list Call) (c : Call) :
  Forall call_in_range calls →
  call_in_range c →
  let st := run_calls (empty_tracker d) calls in
  scores_in_range (trust_network st) ∧
  scores_in_range (trust_network (run_call st c).1).
Proof.
  intros Hall Hc. split.
  - by apply scores_in_range_reachable.
  - rewrite <- run_calls_snoc. apply scores_in_range_reachable.
    apply Forall_app. split; [done | by apply Forall_singleton].
Qed.

Lemma demo_calls_in_range : Forall call_in_range demo_calls.
Proof. repeat constructor; by vm_compute. Defined.

Lemma update_trust_keeps_scores_in_range_witness :
  Forall call_in_range demo_calls ∧
  call_in_range (mkCall "agent2" 1 0 None None None) ∧
  scores_in_range
    (trust_network
       (run_call (run_calls (empty_tracker (mkDisk FileAbsent [])) demo_calls)
          (mkCall "agent2" 1 0 None None None)).1).
Proof.
  assert (Hc : call_in_range (mkCall "agent2" 1 0 None None None))
    by (repeat split; by vm_compute).
  split; [exact demo_calls_in_range|]. split; [exact Hc|].
  exact (proj2 (update_trust_keeps_scores_in_range (mkDisk FileAbsent []) demo_calls
                  (mkCall "agent2" 1 0 None None None) demo_calls_in_range Hc)).
Defined.

(** ** Strengths and areas for growth only grow, without duplicates *)

Lemma merge_missing_cons (old : list string) (x : string) (new : list string) :
  merge_missing old (x :: new) =
  merge_missing (if decide (x ∈ old) then old else old ++ [x]) new.
Proof. reflexivity. Qed.

Lemma elem_of_merge_missing (new old : list string) (x : string) :
  x ∈ merge_missing old new ↔ x ∈ old ∨ x ∈ new.
Proof.
  revert old. induction new as [|y new IH]; intros old.
  - simpl. rewrite elem_of_nil. tauto.
  - rewrite merge_missing_cons, IH, elem_of_cons.
    destruct (decide (y ∈ old)) as [Hy|Hy].
    + split; [tauto|]. intros [?|[->|?]]; tauto.
    + rewrite elem_of_app, list_elem_of_singleton. tauto.
Qed.

Lemma merge_missing_NoDup (new old : list string) :
  NoDup old → NoDup (merge_missing old new).
Proof.
  revert old. induction new as [|y new IH]; intros old Hnd; [done|].
  rewrite merge_missing_cons. apply IH.
  destruct (decide (y ∈ old)) as [Hy|Hy]; [done|].
  apply NoDup_app. split; [done|]. split; [|apply NoDup_singleton].
  intros z Hz ->%list_elem_of_singleton. done.
Qed.

Lemma merge_missing_prefix (new old : list string) :
  old `prefix_of` merge_missing old new.
Proof.
  revert old. induction new as [|y new IH]; intros old; [done|].
  rewrite merge_missing_cons.
  destruct (decide (y ∈ old)) as [Hy|Hy]; [apply IH|].
  etrans; [|apply IH]. by apply prefix_app_r.
Qed.

Lemma default_truthy_list {A} (o : option (list A)) :
  default [] (truthy_list o) = default [] o.
Proof. by destruct o as [[|? ?]|]. Qed.

Lemma profile_before_lists (net : gmap string Profile) (a : string) :
  (∀ p, net !! a = Some p → NoDup (strengths p) ∧ NoDup (areas_for_growth p)) →
  NoDup (strengths (profile_before net a)) ∧
  NoDup (areas_for_growth (profile_before net a)).
Proof.
  intros H. unfold profile_before. destruct (net !! a) as [p|]; simpl.
  - by apply H.
  - split; apply NoDup_nil_2.
Qed.

Lemma lists_ok_reachable (d : Disk) (calls : list Call) :
  lists_ok calls (trust_network (run_calls (empty_tracker d) calls)).
Proof.
  revert d calls. apply (run_calls_ind lists_ok).
  - intros a p Hp. by rewrite lookup_empty in Hp.
  - intros calls net c Htr IH a p.
    destruct (decide (call_agent c = a)) as [<-|Hne].
    + rewrite lookup_insert_eq. intros [= <-]. simpl.
      destruct (profile_before_lists net (call_agent c)) as [Hs Har].
      { intros q Hq. destruct (IH _ _ Hq) as (? & ? & _). done. }
      split; [by apply merge_missing_NoDup|].
      split; [by apply merge_missing_NoDup|].
      intros c' Hc'. rewrite calls_for_snoc_same, elem_of_app in Hc'.
      rewrite !default_truthy_list.
      destruct Hc' as [Hc'| ->%list_elem_of_singleton].
      * assert (Hsome : is_Some (net !! call_agent c)).
        { apply (Htr (call_agent c)). intros E. rewrite E in Hc'. by apply elem_of_nil in Hc'. }
        destruct Hsome as [q Hq]. destruct (IH _ _ Hq) as (_ & _ & Hsub).
        destruct (Hsub c' Hc') as [Hs' Har'].
        unfold profile_before. rewrite Hq. simpl.
        split; intros x Hx; apply elem_of_merge_missing; left; auto.
      * split; intros x Hx; apply elem_of_merge_missing; by right.
    + rewrite lookup_insert_ne by done. rewrite calls_for_snoc_other by done.
      apply IH.
Qed.

(** C6. Monotonic deduplicated growth: on a tracker reached from an empty
    one, the strengths and areas-for-growth lists of an agent's profile
    have no duplicates and contain every element of every list supplied
    for that agent by a call of the sequence; and any further call leaves
    the agent with a profile whose two lists contain all they contained
    before. *)
Theorem strengths_grow_without_duplicates
    (d : Disk) (calls : list Call) (a : string) (p : Profile) :
  let st := run_calls (empty_tracker d) calls in
  trust_network st !! a = Some p →
  NoDup (strengths p) ∧
  NoDup (areas_for_growth p) ∧
  (∀ c l, c ∈ calls → call_agent c = a → call_strengths c = Some l → l ⊆ strengths p) ∧
  (∀ c l, c ∈ calls → call_agent c = a → call_areas c = Some l → l ⊆ areas_for_growth p) ∧
  (∀ c' : Call, ∃ p' : Profile,
     trust_network (run_call st c').1 !! a = Some p' ∧
     strengths p ⊆ strengths p' ∧
     areas_for_growth p ⊆ areas_for_growth p').
Proof.
  intros st Hp.
  destruct (lists_ok_reachable d calls a p Hp) as (Hs & Har & Hsub).
  split; [done|]. split; [done|].
  assert (Hin : ∀ c, c ∈ calls → call_agent c = a → c ∈ calls_for a calls).
  { intros c Hc Ha. unfold calls_for. by apply list_elem_of_filter. }
  split; [|split].
  - intros c l Hc Ha Hl. destruct (Hsub c (Hin c Hc Ha)) as [H _].
    by rewrite Hl in H.
  - intros c l Hc Ha Hl. destruct (Hsub c (Hin c Hc Ha)) as [_ H].
    by rewrite Hl in H.
  - intros c'. pose proof (run_calls_tracks d calls) as Htr.
    subst st. destruct (run_calls (empty_tracker d) calls) as [net d'].
    simpl in Hp, Htr. rewrite (run_call_returns calls net d' c' Htr). simpl.
    destruct (decide (call_agent c' = a)) as [<-|Hne].
    + rewrite lookup_insert_eq. eexists. split; [done|].
      unfold profile_before. rewrite Hp. simpl.
      split; intros x Hx; apply elem_of_merge_missing; by left.
    + rewrite lookup_insert_ne by done. by exists p.
Qed.

Lemma strengths_grow_without_duplicates_witness :
  ∃ p : Profile,
    trust_network (run_calls (empty_tracker (mkDisk FileAbsent [])) demo_calls) !! "agent1"
      = Some p ∧
    NoDup (strengths p) ∧
    ["data analysis"] ⊆ strengths p.
Proof.
  eexists. split; [by vm_compute|].
  destruct (strengths_grow_without_duplicates (mkDisk FileAbsent []) demo_calls "agent1" _
              ltac:(by vm_compute)) as (Hnd & _ & Hsub & _).
  split; [exact Hnd|].
  apply (Hsub (mkCall "agent1" (decimal 85 100) (decimal 92 100) (Some "analytical")
                 (Some ["data analysis"]) None)).
  - apply list_elem_of_here.
  - reflexivity.
  - reflexivity.
Defined.

(** ** Falsy optional arguments *)

(** C10. An empty string for [collaboration_style] and an empty list for
    [strengths] or [areas_for_growth] act exactly as an omitted argument,
    on every tracker; and a call whose three optional arguments are falsy
    leaves the style and both lists of the profile as they were while the
    count and the two averages are updated. *)
Theorem falsy_arguments_act_as_absent
    (net : gmap string Profile) (d : Disk) (a : string) (quality reliability_score : Qc)
    (style : option string) (new_strengths new_areas : option (list string)) :
  let st := mkTracker net d in
  let p := profile_before net a in
  update_trust a quality reliability_score (Some "") new_strengths new_areas st =
    update_trust a quality reliability_score None new_strengths new_areas st ∧
  update_trust a quality reliability_score style (Some []) new_areas st =
    update_trust a quality reliability_score style None new_areas st ∧
  update_trust a quality reliability_score style new_strengths (Some []) st =
    update_trust a quality reliability_score style new_strengths None st ∧
  ((interactions p + 1)%Z ≠ 0%Z →
   ∃ p' : Profile,
     (update_trust a quality reliability_score (Some "") (Some []) (Some []) st).2
       = Return p' ∧
     trust_network
       (update_trust a quality reliability_score (Some "") (Some []) (Some []) st).1 !! a
       = Some p' ∧
     collaboration_style p' = collaboration_style p ∧
     strengths p' = strengths p ∧
     areas_for_growth p' = areas_for_growth p ∧
     interactions p' = (interactions p + 1)%Z ∧
     reliability p' = running_average (reliability p) (interactions p + 1) reliability_score ∧
     interaction_quality p' =
       running_average (interaction_quality p) (interactions p + 1) quality).
Proof.
  intros st p.
  split; [reflexivity|]. split; [reflexivity|]. split; [reflexivity|].
  intros Hn. subst st. rewrite update_trust_returns by done. simpl.
  eexists. split; [reflexivity|]. rewrite lookup_insert_eq.
  split; [reflexivity|]. simpl. repeat split; reflexivity.
Qed.

Lemma falsy_arguments_act_as_absent_witness :
  let net := trust_network (run_calls (empty_tracker (mkDisk FileAbsent [])) demo_calls) in
  let st := mkTracker net (mkDisk FileAbsent []) in
  (interactions (profile_before net "agent1") + 1)%Z ≠ 0%Z ∧
  ∃ p' : Profile,
    (update_trust "agent1" 1 1 (Some "") (Some []) (Some []) st).2 = Return p' ∧
    collaboration_style p' = "analytical" ∧
    strengths p' = ["data analysis"] ∧
    interactions p' = 3%Z.
Proof.
  intros net st.
  assert (H : (interactions (profile_before net "agent1") + 1)%Z ≠ 0%Z)
    by (vm_compute; discriminate).
  split; [exact H|].
  destruct (falsy_arguments_act_as_absent net (mkDisk FileAbsent []) "agent1" 1 1
              None None None) as (_ & _ & _ & Hframe).
  destruct (Hframe H) as (p' & Hret & _ & Hstyle & Hstr & _ & Hn & _).
  exists p'. split; [exact Hret|].
  split; [rewrite Hstyle; reflexivity|].
  split; [rewrite Hstr; reflexivity|].
  rewrite Hn. reflexivity.
Defined.

(** ** The closed form of [get_collaboration_recommendation] *)

Lemma missing_nil_iff (net : gmap string Profile) (agent_ids : list string) :
  missing net agent_ids = [] ↔ Forall (λ agent_id, is_Some (net !! agent_id)) agent_ids.
Proof.
  unfold missing. induction agent_ids as [|x l IH]; [done|].
  rewrite filter_cons, Forall_cons.
  destruct (decide (net !! x = None)) as [Hx|Hx].
  - split; [done|]. intros [[p Hp] _]. congruence.
  - rewrite IH. split; [|tauto]. intros H. split; [|done].
    destruct (net !! x); [eauto | done].
Qed.

Lemma each_profile_runs {A} (key : Profile → A)
    (net : gmap string Profile) (d : Disk) (agent_ids : list string) :
  Forall (λ agent_id, is_Some (net !! agent_id)) agent_ids →
  each_profile key agent_ids (mkTracker net d) =
  (mkTracker net d, Return (requested key net agent_ids)).
Proof.
  unfold each_profile, requested.
  induction 1 as [|x l [p Hp] _ IH]; [reflexivity|].
  cbn [mapM fmap list_fmap].
  rewrite bind_unfold.
  rewrite (bind_returns _ _ _ _ _ (getitem_present net d x p Hp)).
  cbn [mret M_ret]. rewrite bind_unfold, IH.
  unfold profile_before. rewrite Hp. reflexivity.
Qed.

Lemma py_max_runs (xs : list Qc) (st : Tracker) :
  xs ≠ [] → py_max xs st = (st, Return (greatest xs)).
Proof. by destruct xs. Qed.

Lemma py_min_runs (xs : list Qc) (st : Tracker) :
  xs ≠ [] → py_min xs st = (st, Return (least xs)).
Proof. by destruct xs. Qed.

(** A request that names an agent without a profile returns the "not
    found" dict and touches nothing. *)
Lemma recommendation_missing (net : gmap string Profile) (d : Disk) (agent_ids : list string) :
  missing net agent_ids ≠ [] →
  get_collaboration_recommendation agent_ids (mkTracker net d) =
  (mkTracker net d,
   Return (NotFound "Agents not found in trust network" (missing net agent_ids))).
Proof.
  intros H. unfold get_collaboration_recommendation.
  rewrite (bind_returns get_network _ _ (mkTracker net d) net) by reflexivity.
  fold (missing net agent_ids).
  by destruct (missing net agent_ids).
Qed.

(** A non-empty request whose agents all have a profile returns the
    recommendation and touches nothing. *)
Lemma recommendation_runs (net : gmap string Profile) (d : Disk) (agent_ids : list string) :
  agent_ids ≠ [] →
  missing net agent_ids = [] →
  get_collaboration_recommendation agent_ids (mkTracker net d) =
  (mkTracker net d, Return (Recommendation (recommendation_of net agent_ids))).
Proof.
  intros Hne Hmiss. unfold get_collaboration_recommendation.
  rewrite (bind_returns get_network _ _ (mkTracker net d) net) by reflexivity.
  fold (missing net agent_ids). rewrite Hmiss.
  apply missing_nil_iff in Hmiss.
  assert (Hlen : py_len agent_ids ≠ 0) by (by rewrite py_len_nil_iff).
  assert (Hrel : requested reliability net agent_ids ≠ []).
  { unfold requested. by destruct agent_ids. }
  rewrite (bind_returns _ _ _ _ _ (each_profile_runs reliability net d agent_ids Hmiss)).
  rewrite (bind_returns _ _ _ _ _ (truediv_nonzero _ _ _ Hlen)).
  rewrite (bind_returns _ _ _ _ _ (each_profile_runs interaction_quality net d agent_ids Hmiss)).
  rewrite (bind_returns _ _ _ _ _ (truediv_nonzero _ _ _ Hlen)).
  rewrite (bind_returns _ _ _ _ _ (each_profile_runs strengths net d agent_ids Hmiss)).
  rewrite (bind_returns _ _ _ _ _ (each_profile_runs collaboration_style net d agent_ids Hmiss)).
  rewrite (bind_returns _ _ _ _ _ (each_profile_runs reliability net d agent_ids Hmiss)).
  rewrite (bind_returns _ _ _ _ _ (py_max_runs _ _ Hrel)).
  rewrite (bind_returns _ _ _ _ _ (py_min_runs _ _ Hrel)).
  rewrite (bind_returns _ _ _ _ _ (each_profile_runs id net d agent_ids Hmiss)).
  reflexivity.
Qed.

(** An empty request divides by [len(agent_ids) = 0]. *)
Lemma recommendation_empty (st : Tracker) :
  get_collaboration_recommendation [] st = (st, Raise ZeroDivisionError).
Proof.
  destruct st as [net d]. unfold get_collaboration_recommendation.
  rewrite (bind_returns get_network _ _ (mkTracker net d) net) by reflexivity.
  simpl. reflexivity.
Qed.

(** A recommendation is only returned for a non-empty request whose
    agents all have a profile, and then it is [recommendation_of]. *)
Lemma recommendation_inv (net : gmap string Profile) (d : Disk) (agent_ids : list string)
    (r : CollaborationRecommendation) :
  (get_collaboration_recommendation agent_ids (mkTracker net d)).2 = Return (Recommendation r) →
  agent_ids ≠ [] ∧ missing net agent_ids = [] ∧ r = recommendation_of net agent_ids.
Proof.
  intros H.
  destruct (decide (missing net agent_ids = [])) as [Hm|Hm].
  - destruct agent_ids as [|x l].
    + by rewrite recommendation_empty in H.
    + rewrite recommendation_runs in H by done. simpl in H.
      split; [done|]. split; [done|]. congruence.
  - by rewrite (recommendation_missing _ _ _ Hm) in H.
Qed.

(** ** Missing agents *)

(** C3. A request that names at least one agent without a profile returns
    (it does not raise) the "not found" reply, whose [missing_agents] are
    the requested ids without a profile, in request order; no score is
    computed and the tracker is left as it was. *)
Theorem missing_agents_rejected (st : Tracker) (agent_ids : list string) :
  (∃ agent_id, agent_id ∈ agent_ids ∧ trust_network st !! agent_id = None) →
  ∃ missing_agents : list string,
    get_collaboration_recommendation agent_ids st =
      (st, Return (NotFound "Agents not found in trust network" missing_agents)) ∧
    missing_agents = filter (λ agent_id, trust_network st !! agent_id = None) agent_ids ∧
    ∀ agent_id, agent_id ∈ missing_agents ↔
                agent_id ∈ agent_ids ∧ trust_network st !! agent_id = None.
Proof.
  intros (x & Hx & Hnone). destruct st as [net d]. simpl in *.
  exists (missing net agent_ids).
  assert (Hm : missing net agent_ids ≠ []).
  { intros E. assert (Hin : x ∈ missing net agent_ids) by (by apply list_elem_of_filter).
    rewrite E in Hin. by apply elem_of_nil in Hin. }
  split; [by apply recommendation_missing|]. split; [reflexivity|].
  intros y. unfold missing. rewrite list_elem_of_filter. tauto.
Qed.

Lemma missing_agents_rejected_witness :
  (∃ agent_id, agent_id ∈ ["agent1"; "nobody"] ∧
               trust_network demo_tracker !! agent_id = None) ∧
  get_collaboration_recommendation ["agent1"; "nobody"] demo_tracker =
    (demo_tracker, Return (NotFound "Agents not found in trust network" ["nobody"])).
Proof.
  assert (H : ∃ agent_id, agent_id ∈ ["agent1"; "nobody"] ∧
                          trust_network demo_tracker !! agent_id = None).
  { exists "nobody". split; [apply list_elem_of_further, list_elem_of_here | by vm_compute]. }
  split; [exact H|].
  destruct (missing_agents_rejected demo_tracker ["agent1"; "nobody"] H) as (m & Hrun & Hm & _).
  rewrite Hrun, Hm. reflexivity.
Defined.

(** ** Exceptions *)

Lemma recommendation_nonempty_returns (st : Tracker) (agent_ids : list string) :
  agent_ids ≠ [] →
  ∃ reply, get_collaboration_recommendation agent_ids st = (st, Return reply).
Proof.
  intros Hne. destruct st as [net d].
  destruct (decide (missing net agent_ids = [])) as [Hm|Hm].
  - eexists. by apply recommendation_runs.
  - eexists. by apply recommendation_missing.
Qed.

Lemma get_agent_profile_returns (st : Tracker) (agent_id : string) :
  ∃ reply, get_agent_profile agent_id st = (st, Return reply).
Proof.
  unfold get_agent_profile.
  rewrite (bind_returns get_network _ _ st (trust_network st)) by reflexivity.
  destruct (trust_network st !! agent_id); eexists; reflexivity.
Qed.

(** C4 (the code departs from the claim). A recommendation for the empty
    list of agent ids raises [ZeroDivisionError] on every tracker: no id is
    missing, so the method goes on to divide a sum by [len(agent_ids) = 0].
    The other operations do return: [get_agent_profile] always, a
    recommendation for a non-empty list always, and [update_trust] on every
    tracker reached from an empty one. *)
Theorem empty_request_raises (st : Tracker) :
  get_collaboration_recommendation [] st = (st, Raise ZeroDivisionError) ∧
  (∀ agent_ids, agent_ids ≠ [] →
     ∃ reply, get_collaboration_recommendation agent_ids st = (st, Return reply)) ∧
  (∀ agent_id, ∃ reply, get_agent_profile agent_id st = (st, Return reply)) ∧
  (∀ d calls c, ∃ p, (run_call (run_calls (empty_tracker d) calls) c).2 = Return p).
Proof.
  split; [apply recommendation_empty|].
  split; [intros; by apply recommendation_nonempty_returns|].
  split; [intros; apply get_agent_profile_returns|].
  intros d calls c. pose proof (run_calls_tracks d calls) as Htr.
  destruct (run_calls (empty_tracker d) calls) as [net d'].
  rewrite (run_call_returns calls net d' c Htr). eexists. reflexivity.
Qed.

(** ** Tiers *)




(** ** The style-adaptation challenge *)

Lemma elem_of_styles_of (net : gmap string Profile) (agent_ids : list string) (x : string) :
  missing net agent_ids = [] →
  x ∈ styles_of net agent_ids ↔
  ∃ agent_id p, agent_id ∈ agent_ids ∧ net !! agent_id = Some p ∧ collaboration_style p = x.
Proof.
  intros Hm. apply missing_nil_iff in Hm. rewrite Forall_forall in Hm.
  unfold styles_of, requested. rewrite elem_of_list_to_set, list_elem_of_fmap.
  split.
  - intros (a & -> & Ha). destruct (Hm a Ha) as [p Hp].
    exists a, p. unfold profile_before. rewrite Hp. done.
  - intros (a & p & Ha & Hp & <-). exists a.
    unfold profile_before. rewrite Hp. done.
Qed.

(** C7 (amended). For a request whose agents all have a profile, the
    style-adaptation challenge is among the potential challenges exactly
    when the set of distinct collaboration styles of the requested agents
    has more than one element and does not contain "unknown". *)
Theorem style_challenge_condition
    (net : gmap string Profile) (d : Disk) (agent_ids : list string)
    (r : CollaborationRecommendation) :
  (get_collaboration_recommendation agent_ids (mkTracker net d)).2
    = Return (Recommendation r) →
  let styles := styles_of net agent_ids in
  (∀ x, x ∈ styles ↔
        ∃ agent_id p, agent_id ∈ agent_ids ∧ net !! agent_id = Some p ∧
                      collaboration_style p = x) ∧
  (style_challenge ∈ potential_challenges r ↔
   (1 < size styles)%nat ∧ "unknown" ∉ styles).
Proof.
  intros H styles. apply recommendation_inv in H as (_ & Hm & ->).
  split; [intros x; by apply elem_of_styles_of|].
  simpl. fold styles. rewrite elem_of_app.
  destruct (decide ((1 < size styles)%nat ∧ "unknown" ∉ styles)) as [Hc|Hc].
  - split; [done|]. intros _. left. apply list_elem_of_here.
  - split; [|done]. intros [Hin|Hin].
    + by apply elem_of_nil in Hin.
    + case_decide; [|by apply elem_of_nil in Hin].
      apply list_elem_of_singleton in Hin. discriminate Hin.
Qed.

Lemma style_challenge_condition_witness :
  ∃ r : CollaborationRecommendation,
    (get_collaboration_recommendation ["a"; "b"] two_styles).2 = Return (Recommendation r) ∧
    style_challenge ∈ potential_challenges r.
Proof.
  eexists. split; [by vm_compute|].
  apply (style_challenge_condition (trust_network two_styles) (disk two_styles) ["a"; "b"] _
           ltac:(by vm_compute)).
  split; [by vm_compute|].
  intros Hin. unfold styles_of, requested in Hin.
  apply elem_of_list_to_set in Hin.
  vm_compute in Hin.
  apply list_elem_of_In in Hin. simpl in Hin.
  destruct Hin as [Hin|[Hin|[]]]; discriminate Hin.
Defined.

(** C7 as stated fails: the styles of the two agents of [mixed_styles] are
    "analytical" and "unknown", a set of size 2 that does not consist
    solely of "unknown", and the challenge is not reported. *)
Lemma style_challenge_counterexample :
  ¬ (∀ r : CollaborationRecommendation,
       (get_collaboration_recommendation ["a"; "b"] mixed_styles).2
         = Return (Recommendation r) →
       let styles := styles_of (trust_network mixed_styles) ["a"; "b"] in
       style_challenge ∈ potential_challenges r ↔
       (1 < size styles)%nat ∧ styles ≠ {["unknown"]}).
Proof.
  intros H.
  specialize (H (recommendation_of (trust_network mixed_styles) ["a"; "b"])).
  destruct H as [_ H]; [by vm_compute|].
  assert (Hin : style_challenge
                  ∈ potential_challenges (recommendation_of (trust_network mixed_styles) ["a"; "b"])).
  { apply H. split; [by vm_compute|].
    intros E.
    assert (Ha : "analytical" ∈ styles_of (trust_network mixed_styles) ["a"; "b"]).
    { unfold styles_of. apply elem_of_list_to_set. vm_compute. apply list_elem_of_here. }
    rewrite E in Ha. apply elem_of_singleton in Ha. discriminate Ha. }
  vm_compute in Hin. by apply elem_of_nil in Hin.
Qed.

(** ** Round trip through the file *)

Lemma as_string_list_strings (l : list string) :
  as_string_list (JArray (JString <$> l)) = Some l.
Proof. simpl. by apply mapM_fmap_Some. Qed.

Lemma as_profile_to_json (p : Profile) : as_profile (profile_to_json p) = Some p.
Proof.
  destruct p as [n r q s st ar]. unfold as_profile, profile_to_json.
  cbn [interactions reliability interaction_quality collaboration_style
       strengths areas_for_growth].
  change (member "interactions" _) with (Some (JInt n)).
  change (member "reliability" _) with (Some (JFloat r)).
  change (member "interaction_quality" _) with (Some (JFloat q)).
  change (member "collaboration_style" _) with (Some (JString s)).
  change (member "strengths" _) with (Some (JArray (JString <$> st))).
  change (member "areas_for_growth" _) with (Some (JArray (JString <$> ar))).
  cbn [mbind option_bind as_int as_number as_string].
  rewrite !as_string_list_strings. reflexivity.
Qed.

Lemma as_network_to_json (net : gmap string Profile) :
  as_network (network_to_json net) = Some net.
Proof.
  unfold as_network, network_to_json.
  rewrite <- fmap_reverse.
  rewrite (mapM_fmap_Some _ (prod_map id profile_to_json)).
  - simpl. f_equal.
    rewrite <- (list_to_map_to_list net) at 2.
    apply list_to_map_proper.
    + rewrite fmap_reverse, reverse_Permutation. apply NoDup_fst_map_to_list.
    + apply reverse_Permutation.
  - intros [k p]. unfold prod_map. cbn [fst snd]. by rewrite as_profile_to_json.
Qed.

(** Loading a file that holds the document of a map gives the map back. *)
Lemma load_network_doc (st : Tracker) (net : gmap string Profile) :
  content (disk st) = FileDoc (network_to_json net) →
  _load_network st = (st, Return net).
Proof.
  intros H. unfold _load_network, path_exists, read_file, try_except.
  unfold mbind, M_bind, get_disk, mret, M_ret, raise.
  repeat (cbn -[as_network network_to_json]; rewrite H).
  cbn -[as_network network_to_json]. rewrite as_network_to_json. reflexivity.
Qed.

(** C9. Load after save: when the write goes through, [_save_network]
    leaves the document of the profile map in the file, and a fresh
    tracker constructed over that file holds a profile map equal to the
    one that was saved (so every agent id maps to a profile with the same
    six values). *)
Theorem load_after_save_round_trip (net : gmap string Profile) (d : Disk) :
  write_succeeds d →
  let saved := (_save_network (mkTracker net d)).1 in
  trust_network saved = net ∧
  content (disk saved) = FileDoc (network_to_json net) ∧
  __init__ (disk saved) = (mkTracker net (disk saved), Return ()) ∧
  ∀ agent_id, trust_network (__init__ (disk saved)).1 !! agent_id = net !! agent_id.
Proof.
  intros Hw saved. subst saved. rewrite save_network_runs. simpl.
  assert (Hc : content (disk_after_save net d) = FileDoc (network_to_json net)).
  { unfold disk_after_save, write_succeeds in *.
    destruct (outcomes d) as [|[] rest]; done. }
  assert (Hinit : __init__ (disk_after_save net d)
                  = (mkTracker net (disk_after_save net d), Return ())).
  { unfold __init__. rewrite bind_unfold.
    rewrite (load_network_doc _ net) by done. reflexivity. }
  split; [done|]. split; [done|]. split; [done|].
  intros a. by rewrite Hinit.
Qed.

Lemma load_after_save_round_trip_witness :
  write_succeeds (mkDisk FileMalformed [WriteOk; DumpFails]) ∧
  __init__ (disk (_save_network
                    (mkTracker (trust_network demo_tracker)
                       (mkDisk FileMalformed [WriteOk; DumpFails]))).1)
  = (mkTracker (trust_network demo_tracker)
       (disk (_save_network
                (mkTracker (trust_network demo_tracker)
                   (mkDisk FileMalformed [WriteOk; DumpFails]))).1),
     Return ()).
Proof.
  split; [exact I|].
  exact (proj1 (proj2 (proj2 (load_after_save_round_trip (trust_network demo_tracker)
                                (mkDisk FileMalformed [WriteOk; DumpFails]) I)))).
Defined.

(** When the write fails, the file does not hold the map: a fresh tracker
    starts empty. *)
Lemma load_after_failed_save :
  (__init__ (disk (_save_network
                     (mkTracker (trust_network demo_tracker)
                        (mkDisk FileAbsent [OpenFails]))).1)).1
  = mkTracker ∅ (mkDisk FileAbsent []).
Proof. reflexivity. Qed.

(** ** Common and unique strengths *)

Ltac decide_cases := repeat case_decide; subst; try done; try congruence; try lia.

Lemma count_of_incr (s k : string) (d : list (string * Z)) :
  count_of s (count_incr k d) = (count_of s d + (if decide (s = k) then 1 else 0))%Z.
Proof.
  induction d as [|[k' c] rest IH]; simpl.
  - decide_cases.
  - destruct (decide (k' = k)) as [->|Hk]; simpl.
    + decide_cases.
    + rewrite IH. decide_cases.
Qed.

Lemma keys_incr (k : string) (d : list (string * Z)) :
  (count_incr k d).*1 = if decide (k ∈ d.*1) then d.*1 else d.*1 ++ [k].
Proof.
  induction d as [|[k' c] rest IH]; [reflexivity|].
  cbn [count_incr]. destruct (decide (k' = k)) as [->|Hk]; rewrite !fmap_cons; cbn [fst].
  - rewrite decide_True by apply list_elem_of_here. done.
  - rewrite IH. destruct (decide (k ∈ rest.*1)) as [Hin|Hin].
    + rewrite decide_True by (by apply list_elem_of_further). done.
    + rewrite decide_False; [done|].
      intros [?|?]%elem_of_cons; congruence.
Qed.

Lemma keys_incr_NoDup (k : string) (d : list (string * Z)) :
  NoDup d.*1 → NoDup (count_incr k d).*1.
Proof.
  intros H. rewrite keys_incr. case_decide as Hin; [done|].
  apply NoDup_app. split; [done|]. split; [|apply NoDup_singleton].
  intros x Hx ->%list_elem_of_singleton. done.
Qed.

Lemma elem_of_keys_incr (s k : string) (d : list (string * Z)) :
  s ∈ (count_incr k d).*1 ↔ s ∈ d.*1 ∨ s = k.
Proof.
  rewrite keys_incr. case_decide as Hin.
  - split; [tauto|]. intros [?| ->]; done.
  - by rewrite elem_of_app, list_elem_of_singleton.
Qed.

Lemma elem_of_counts (d : list (string * Z)) (s : string) (c : Z) :
  NoDup d.*1 → (s, c) ∈ d ↔ s ∈ d.*1 ∧ count_of s d = c.
Proof.
  induction d as [|[k' c'] rest IH]; simpl; intros Hnd.
  - rewrite !elem_of_nil. tauto.
  - apply NoDup_cons in Hnd as [Hk' Hnd]. rewrite !elem_of_cons, (IH Hnd).
    destruct (decide (k' = s)) as [->|Hne].
    + split.
      * intros [[= ->]|[Hin _]]; [tauto | done].
      * intros [_ ->]. by left.
    + split.
      * intros [[= -> ->]|[Hin Hc]]; [done | tauto].
      * intros [[->|Hin] Hc]; [done | tauto].
Qed.

Lemma occurrences_snoc (s k : string) (l : list string) :
  occurrences s (l ++ [k]) = (occurrences s l + (if decide (s = k) then 1 else 0))%nat.
Proof.
  unfold occurrences. rewrite filter_app, length_app. f_equal.
  rewrite filter_cons, filter_nil. repeat case_decide; try congruence; done.
Qed.

Lemma occurrences_app (s : string) (l1 l2 : list string) :
  occurrences s (l1 ++ l2) = (occurrences s l1 + occurrences s l2)%nat.
Proof. unfold occurrences. by rewrite filter_app, length_app. Qed.

Lemma occurrences_pos (s : string) (l : list string) :
  (0 < occurrences s l)%nat ↔ s ∈ l.
Proof.
  unfold occurrences. induction l as [|x l IH].
  - rewrite filter_nil, elem_of_nil. simpl. lia.
  - rewrite filter_cons, elem_of_cons. destruct (decide (x = s)) as [->|Hx].
    + cbn [length]. split; [auto | lia].
    + rewrite IH. split; [auto|]. intros [->|?]; done.
Qed.

Lemma occurrences_NoDup (s : string) (l : list string) :
  NoDup l → occurrences s l = if decide (s ∈ l) then 1%nat else 0%nat.
Proof.
  unfold occurrences. induction 1 as [|x l Hx Hnd IH]; [reflexivity|].
  rewrite filter_cons. destruct (decide (x = s)) as [->|Hne].
  - cbn [length]. rewrite IH, decide_False by done.
    rewrite decide_True by apply list_elem_of_here. done.
  - rewrite IH. destruct (decide (s ∈ l)) as [Hin|Hin].
    + rewrite decide_True by (by apply list_elem_of_further). done.
    + rewrite decide_False; [done|].
      intros [?|?]%elem_of_cons; congruence.
Qed.

(** The counts built by the counting loop: one entry per distinct string,
    holding its number of occurrences. *)
Lemma count_strengths_spec (all : list string) :
  NoDup (count_strengths all).*1 ∧
  (∀ s, s ∈ (count_strengths all).*1 ↔ s ∈ all) ∧
  (∀ s, count_of s (count_strengths all) = Z.of_nat (occurrences s all)).
Proof.
  unfold count_strengths.
  induction all as [|k all (Hnd & Hkeys & Hcount)] using rev_ind.
  - simpl. split; [apply NoDup_nil_2|]. split; [done|done].
  - rewrite foldl_app. simpl. split; [by apply keys_incr_NoDup|]. split.
    + intros s. rewrite elem_of_keys_incr, Hkeys, elem_of_app, list_elem_of_singleton. done.
    + intros s. rewrite count_of_incr, Hcount, occurrences_snoc.
      case_decide; lia.
Qed.

Lemma elem_of_filter_counts (P : Z → Prop)
    `{Hdec : ∀ item : string * Z, Decision (P item.2)}
    (all : list string) (s : string) :
  s ∈ (filter (λ item, P item.2) (count_strengths all)).*1 ↔
  s ∈ all ∧ P (Z.of_nat (occurrences s all)).
Proof.
  destruct (count_strengths_spec all) as (Hnd & Hkeys & Hcount).
  rewrite list_elem_of_fmap. split.
  - intros ([k c] & -> & [HP Hin]%list_elem_of_filter). simpl in *.
    apply (elem_of_counts _ _ _ Hnd) in Hin as [Hk Hc].
    rewrite Hcount in Hc. rewrite Hc. split; [by apply Hkeys | done].
  - intros [Hin HP]. exists (s, Z.of_nat (occurrences s all)). split; [done|].
    apply list_elem_of_filter. split; [done|].
    apply (elem_of_counts _ _ _ Hnd). split; [by apply Hkeys | by rewrite Hcount].
Qed.

Lemma filter_counts_NoDup (P : Z → Prop)
    `{Hdec : ∀ item : string * Z, Decision (P item.2)} (all : list string) :
  NoDup (filter (λ item, P item.2) (count_strengths all)).*1.
Proof.
  destruct (count_strengths_spec all) as (Hnd & _).
  apply (sublist_NoDup _ (count_strengths all).*1); [exact Hnd | apply fmap_sublist, sublist_filter].
Qed.

Lemma has_strength_profile_before (net : gmap string Profile) (a s : string) :
  has_strength net a s ↔ s ∈ strengths (profile_before net a).
Proof.
  unfold has_strength, profile_before. destruct (net !! a) as [p|]; simpl.
  - split; [by intros (? & [= <-] & ?) | eauto].
  - split; [by intros (? & ? & ?) | by intros ?%elem_of_nil].
Qed.

Lemma elem_of_holders (net : gmap string Profile) (agent_ids : list string) (s a : string) :
  a ∈ holders net agent_ids s ↔ a ∈ agent_ids ∧ has_strength net a s.
Proof.
  unfold holders. rewrite list_elem_of_filter, has_strength_profile_before. tauto.
Qed.

Lemma occurrences_requested (net : gmap string Profile) (agent_ids : list string) (s : string) :
  (∀ a, a ∈ agent_ids → NoDup (strengths (profile_before net a))) →
  occurrences s (concat (requested strengths net agent_ids)) =
  length (holders net agent_ids s).
Proof.
  unfold requested, holders. induction agent_ids as [|a l IH]; intros Hnd; [reflexivity|].
  rewrite fmap_cons, concat_cons, occurrences_app, filter_cons.
  rewrite IH by (intros; apply Hnd; by apply list_elem_of_further).
  rewrite occurrences_NoDup by apply Hnd, list_elem_of_here.
  by case_decide.
Qed.

Lemma NoDup_length_gt_1 (l : list string) :
  NoDup l → (1 < length l)%nat ↔ ∃ a b, a ≠ b ∧ a ∈ l ∧ b ∈ l.
Proof.
  intros Hnd. destruct l as [|a [|b l]]; simpl.
  - split; [lia|]. intros (a & _ & _ & Ha & _). by apply elem_of_nil in Ha.
  - split; [lia|]. intros (x & y & Hne & ->%list_elem_of_singleton & ->%list_elem_of_singleton).
    done.
  - split; [|lia]. intros _. exists a, b.
    apply NoDup_cons in Hnd as [Hab _].
    split; [intros ->; apply Hab, list_elem_of_here|].
    split; [apply list_elem_of_here | apply list_elem_of_further, list_elem_of_here].
Qed.

Lemma NoDup_length_1 (l : list string) :
  NoDup l → length l = 1%nat ↔ ∃ a, a ∈ l ∧ ∀ b, b ∈ l → b = a.
Proof.
  intros Hnd. destruct l as [|a [|b l]]; simpl.
  - split; [lia|]. intros (a & Ha & _). by apply elem_of_nil in Ha.
  - split; [|done]. intros _. exists a. split; [apply list_elem_of_here|].
    by intros b ->%list_elem_of_singleton.
  - split; [lia|]. intros (c & _ & Hall).
    apply NoDup_cons in Hnd as [Hab _]. exfalso. apply Hab.
    rewrite (Hall a) by apply list_elem_of_here.
    rewrite <- (Hall b) by apply list_elem_of_further, list_elem_of_here.
    apply list_elem_of_here.
Qed.

(** Whatever the request, the two lists sort the strengths by their number
    of occurrences in the concatenation of the requested agents' lists. *)
Lemma strengths_by_occurrences (net : gmap string Profile) (agent_ids : list string) (s : string) :
  let all := concat (requested strengths net agent_ids) in
  (s ∈ common_strengths (recommendation_of net agent_ids) ↔ (1 < occurrences s all)%nat) ∧
  (s ∈ unique_strengths (recommendation_of net agent_ids) ↔ occurrences s all = 1%nat).
Proof.
  intros all. unfold recommendation_of. cbn [common_strengths unique_strengths].
  unfold strength_counts_of. fold all. split.
  - etrans; [apply (elem_of_filter_counts (λ c, (1 < c)%Z))|].
    rewrite <- occurrences_pos. lia.
  - etrans; [apply (elem_of_filter_counts (λ c, c = 1%Z))|].
    rewrite <- occurrences_pos. lia.
Qed.

(** C8 (amended). For a request of distinct agent ids that all have a
    profile whose strengths list has no duplicates (as every list built by
    [update_trust] has), the common strengths are exactly the strengths
    listed by more than one requested agent, the unique strengths exactly
    those listed by exactly one, and every strength listed by a requested
    agent is in exactly one of the two lists. *)
Theorem strengths_partition
    (net : gmap string Profile) (d : Disk) (agent_ids : list string)
    (r : CollaborationRecommendation) :
  (get_collaboration_recommendation agent_ids (mkTracker net d)).2
    = Return (Recommendation r) →
  NoDup agent_ids →
  (∀ a p, a ∈ agent_ids → net !! a = Some p → NoDup (strengths p)) →
  (∀ s, s ∈ common_strengths r ↔
        ∃ a b, a ≠ b ∧ a ∈ agent_ids ∧ b ∈ agent_ids ∧
               has_strength net a s ∧ has_strength net b s) ∧
  (∀ s, s ∈ unique_strengths r ↔
        ∃ a, a ∈ agent_ids ∧ has_strength net a s ∧
             ∀ b, b ∈ agent_ids → has_strength net b s → b = a) ∧
  (∀ s, (∃ a, a ∈ agent_ids ∧ has_strength net a s) ↔
        s ∈ common_strengths r ∨ s ∈ unique_strengths r) ∧
  (∀ s, ¬ (s ∈ common_strengths r ∧ s ∈ unique_strengths r)) ∧
  NoDup (common_strengths r) ∧
  NoDup (unique_strengths r).
Proof.
  intros H Hids Hlists. apply recommendation_inv in H as (_ & _ & ->).
  assert (Hnd : ∀ a, a ∈ agent_ids → NoDup (strengths (profile_before net a))).
  { intros a Ha. unfold profile_before. destruct (net !! a) as [p|] eqn:Hp; simpl.
    - by eapply Hlists.
    - apply NoDup_nil_2. }
  assert (Hocc : ∀ s, occurrences s (concat (requested strengths net agent_ids))
                      = length (holders net agent_ids s))
    by (intros; by apply occurrences_requested).
  assert (Hh : ∀ s, NoDup (holders net agent_ids s)) by (intros; by apply NoDup_filter).
  assert (Hcommon : ∀ s, s ∈ common_strengths (recommendation_of net agent_ids) ↔
                         (1 < length (holders net agent_ids s))%nat).
  { intros s. rewrite <- Hocc. apply strengths_by_occurrences. }
  assert (Hunique : ∀ s, s ∈ unique_strengths (recommendation_of net agent_ids) ↔
                         length (holders net agent_ids s) = 1%nat).
  { intros s. rewrite <- Hocc. apply strengths_by_occurrences. }
  split; [|split; [|split; [|split; [|split]]]].
  - intros s. rewrite Hcommon, (NoDup_length_gt_1 _ (Hh s)).
    split.
    + intros (a & b & Hne & [? ?]%elem_of_holders & [? ?]%elem_of_holders). eauto 10.
    + intros (a & b & Hne & Ha & Hb & Hsa & Hsb). exists a, b.
      rewrite !elem_of_holders. eauto.
  - intros s. rewrite Hunique, (NoDup_length_1 _ (Hh s)).
    split.
    + intros (a & [? ?]%elem_of_holders & Hall). exists a. split; [done|]. split; [done|].
      intros b Hb Hsb. apply Hall, elem_of_holders. done.
    + intros (a & Ha & Hsa & Hall). exists a. split; [by apply elem_of_holders|].
      intros b [? ?]%elem_of_holders. by apply Hall.
  - intros s. rewrite Hcommon, Hunique. split.
    + intros (a & Ha & Hsa).
      assert (Hin : a ∈ holders net agent_ids s) by (by apply elem_of_holders).
      destruct (holders net agent_ids s) as [|x [|y l]]; simpl.
      * by apply elem_of_nil in Hin.
      * by right.
      * left. lia.
    + intros Hlen. destruct (holders net agent_ids s) as [|x l] eqn:Hl.
      * simpl in Hlen. lia.
      * assert (Hin : x ∈ holders net agent_ids s) by (rewrite Hl; apply list_elem_of_here).
        apply elem_of_holders in Hin. by exists x.
  - intros s. rewrite Hcommon, Hunique. lia.
  - apply (filter_counts_NoDup (λ c, (1 < c)%Z)).
  - apply (filter_counts_NoDup (λ c, c = 1%Z)).
Qed.

Lemma strengths_partition_witness :
  ∃ r : CollaborationRecommendation,
    (get_collaboration_recommendation ["agent1"; "agent2"] demo_tracker).2
      = Return (Recommendation r) ∧
    NoDup ["agent1"; "agent2"] ∧
    (∀ s, s ∈ unique_strengths r ↔
          ∃ a, a ∈ ["agent1"; "agent2"] ∧ has_strength (trust_network demo_tracker) a s ∧
               ∀ b, b ∈ ["agent1"; "agent2"] →
                    has_strength (trust_network demo_tracker) b s → b = a).
Proof.
  assert (Hids : NoDup ["agent1"; "agent2"]).
  { apply NoDup_cons. split; [|apply NoDup_singleton].
    intros H%list_elem_of_singleton. discriminate H. }
  eexists. split; [by vm_compute|]. split; [exact Hids|].
  refine (proj1 (proj2 (strengths_partition (trust_network demo_tracker) (disk demo_tracker)
                          ["agent1"; "agent2"] _ ltac:(by vm_compute) Hids _))).
  intros a p Ha Hp.
  destruct (lists_ok_reachable (mkDisk FileAbsent []) demo_calls a p Hp) as (Hnd & _).
  exact Hnd.
Defined.

(** C8 as stated fails: when the one agent of [one_strength] is requested
    twice, its strength "x" is reported as common although no second
    agent lists it. *)
Lemma strengths_partition_counterexample :
  ¬ (∀ r : CollaborationRecommendation,
       (get_collaboration_recommendation ["a"; "a"] one_strength).2
         = Return (Recommendation r) →
       ∀ s, s ∈ common_strengths r ↔
            ∃ a b, a ≠ b ∧ a ∈ ["a"; "a"] ∧ b ∈ ["a"; "a"] ∧
                   has_strength (trust_network one_strength) a s ∧
                   has_strength (trust_network one_strength) b s).
Proof.
  intros H.
  specialize (H (recommendation_of (trust_network one_strength) ["a"; "a"])).
  destruct (H ltac:(by vm_compute) "x") as [Hx _].
  destruct Hx as (a & b & Hne & Ha & Hb & _).
  - vm_compute. apply list_elem_of_here.
  - apply list_elem_of_In in Ha, Hb. simpl in Ha, Hb.
    destruct Ha as [<-|[<-|[]]], Hb as [<-|[<-|[]]]; done.
Qed.

(** ** More on [update_trust]: frame and domain *)

(** X1. A call for one agent leaves the profile (or the absence of a
    profile) of every other agent as it was, whether it returns or raises. *)
Theorem update_trust_leaves_other_agents
    (net : gmap string Profile) (d : Disk) (a b : string) (quality reliability_score : Qc)
    (style : option string) (new_strengths new_areas : option (list string)) :
  b ≠ a →
  trust_network
    (update_trust a quality reliability_score style new_strengths new_areas
       (mkTracker net d)).1 !! b
  = net !! b.
Proof.
  intros Hne.
  destruct (decide ((interactions (profile_before net a) + 1)%Z = 0%Z)) as [H0|H0].
  - rewrite update_trust_raises by done. simpl. by rewrite lookup_insert_ne.
  - rewrite update_trust_returns by done. simpl. by rewrite lookup_insert_ne.
Qed.

Lemma update_trust_leaves_other_agents_witness :
  "agent2" ≠ "agent1" ∧
  trust_network (update_trust "agent1" 1 1 (Some "bold") (Some ["x"]) None demo_tracker).1
    !! "agent2"
  = trust_network demo_tracker !! "agent2".
Proof.
  assert (H : "agent2" ≠ "agent1") by discriminate.
  split; [exact H|].
  exact (update_trust_leaves_other_agents (trust_network demo_tracker) (disk demo_tracker)
           "agent1" "agent2" 1 1 (Some "bold") (Some ["x"]) None H).
Defined.

(** X2. Profiles are permanent: after a call, returning or raising, the
    agents with a profile are those that had one before and the agent of
    the call. *)
Theorem update_trust_domain
    (net : gmap string Profile) (d : Disk) (a : string) (quality reliability_score : Qc)
    (style : option string) (new_strengths new_areas : option (list string)) :
  dom (trust_network
         (update_trust a quality reliability_score style new_strengths new_areas
            (mkTracker net d)).1)
  = {[a]} ∪ dom net.
Proof.
  destruct (decide ((interactions (profile_before net a) + 1)%Z = 0%Z)) as [H0|H0].
  - rewrite update_trust_raises by done. simpl. apply dom_insert_L.
  - rewrite update_trust_returns by done. simpl. apply dom_insert_L.
Qed.

(** ** The order of the stored lists *)





(** ** The stored style *)

Lemma style_unknown_until_supplied (d : Disk) (calls : list Call) (a : string) (p : Profile) :
  trust_network (run_calls (empty_tracker d) calls) !! a = Some p →
  (∀ c, c ∈ calls_for a calls → truthy_str (call_style c) = None) →
  collaboration_style p = "unknown".
Proof.
  revert d calls a p.
  refine (run_calls_ind
            (λ calls net, ∀ a p, net !! a = Some p →
               (∀ c, c ∈ calls_for a calls → truthy_str (call_style c) = None) →
               collaboration_style p = "unknown") _ _).
  - intros a p Hp. by rewrite lookup_empty in Hp.
  - intros calls net c Htr IH a p.
    destruct (decide (call_agent c = a)) as [<-|Hne].
    + rewrite lookup_insert_eq. intros [= <-] Hall. simpl.
      rewrite calls_for_snoc_same in Hall.
      rewrite (Hall c) by (apply elem_of_app; right; apply list_elem_of_here). simpl.
      unfold profile_before. destruct (net !! call_agent c) as [q|] eqn:Hq; [|done].
      simpl. apply (IH _ _ Hq). intros c' Hc'. apply Hall, elem_of_app. by left.
    + rewrite lookup_insert_ne by done. rewrite calls_for_snoc_other by done. apply IH.
Qed.

(** X5. Last write wins: on a tracker built from an empty one, the stored
    collaboration style of an agent is the last non-empty style supplied
    by a call for that agent (later calls for it that supply none, or the
    empty string, and calls for other agents, do not change it); an agent
    never given a style has the style "unknown". *)
Theorem style_is_last_supplied
    (d : Disk) (earlier later : list Call) (c : Call) (s : string) (p : Profile) :
  truthy_str (call_style c) = Some s →
  (∀ c', c' ∈ later → call_agent c' = call_agent c → truthy_str (call_style c') = None) →
  trust_network (run_calls (empty_tracker d) (earlier ++ c :: later)) !! call_agent c
    = Some p →
  collaboration_style p = s ∧
  ∀ b q, trust_network (run_calls (empty_tracker d) (earlier ++ c :: later)) !! b = Some q →
         (∀ c', c' ∈ earlier ++ c :: later → call_agent c' = b →
                truthy_str (call_style c') = None) →
         collaboration_style q = "unknown".
Proof.
  intros Hs Hlater Hp. split.
  - revert p Hp Hlater. induction later as [|c' later IH] using rev_ind; intros p Hp Hlater.
    + revert Hp. rewrite run_calls_snoc.
      pose proof (run_calls_tracks d earlier) as Htr.
      destruct (run_calls (empty_tracker d) earlier) as [net d'].
      rewrite (run_call_returns earlier net d' c Htr). simpl.
      rewrite lookup_insert_eq. intros [= <-]. simpl. by rewrite Hs.
    + revert Hp.
      replace (earlier ++ c :: later ++ [c']) with ((earlier ++ c :: later) ++ [c'])
        by (by rewrite <- app_assoc).
      rewrite run_calls_snoc.
      pose proof (run_calls_tracks d (earlier ++ c :: later)) as Htr.
      destruct (run_calls (empty_tracker d) (earlier ++ c :: later)) as [net d'] eqn:Hrun.
      rewrite (run_call_returns _ net d' c' Htr). simpl in *.
      assert (Hprev : ∀ q, net !! call_agent c = Some q → collaboration_style q = s).
      { intros q Hq. apply IH; [done|].
        intros c'' Hc''. apply Hlater, elem_of_app. by left. }
      destruct (decide (call_agent c' = call_agent c)) as [Heq|Hne].
      * rewrite Heq, lookup_insert_eq. intros [= <-]. simpl.
        rewrite (Hlater c') by (done || (apply elem_of_app; right; apply list_elem_of_here)).
        simpl. unfold profile_before.
        destruct (net !! call_agent c) as [q|] eqn:Hq; [by apply Hprev|].
        exfalso. destruct (Htr (call_agent c)) as (Hdom & _).
        assert (Hsome : is_Some (net !! call_agent c)).
        { apply Hdom. intros E.
          assert (Hin : c ∈ calls_for (call_agent c) (earlier ++ c :: later)).
          { apply list_elem_of_filter. split; [done|].
            apply elem_of_app. right. apply list_elem_of_here. }
          rewrite E in Hin. by apply elem_of_nil in Hin. }
        rewrite Hq in Hsome. by destruct Hsome.
      * rewrite lookup_insert_ne by done. apply Hprev.
  - intros b q Hq Hall. apply (style_unknown_until_supplied d _ b q Hq).
    intros c' [Hb Hin]%list_elem_of_filter. by apply Hall.
Qed.

Lemma style_is_last_supplied_witness :
  ∃ p, trust_network (run_calls (empty_tracker (mkDisk FileAbsent [])) style_calls) !! "a"
       = Some p ∧
       collaboration_style p = "calm".
Proof.
  eexists. split; [by vm_compute|].
  refine (proj1 (style_is_last_supplied (mkDisk FileAbsent [])
                   [mkCall "a" 1 1 (Some "bold") None None]
                   [mkCall "b" 1 1 None None None; mkCall "a" 1 1 (Some "") None None]
                   (mkCall "a" 1 1 (Some "calm") None None) "calm" _ eq_refl _ _)).
  - intros c' Hc' Ha. apply list_elem_of_In in Hc'. simpl in Hc'.
    destruct Hc' as [<-|[<-|[]]]; [discriminate Ha | reflexivity].
  - by vm_compute.
Defined.

(** ** Which agents have a profile *)

Lemma called_iff_calls_for (calls : list Call) (a : string) :
  calls_for a calls ≠ [] ↔ a ∈ call_agent <$> calls.
Proof.
  rewrite list_elem_of_fmap. split.
  - intros Hne. destruct (calls_for a calls) as [|c l] eqn:Hl; [done|].
    assert (Hin : c ∈ calls_for a calls) by (rewrite Hl; apply list_elem_of_here).
    apply list_elem_of_filter in Hin as [Ha Hin]. eauto.
  - intros (c & -> & Hin) E.
    assert (Hc : c ∈ calls_for (call_agent c) calls) by (by apply list_elem_of_filter).
    rewrite E in Hc. by apply elem_of_nil in Hc.
Qed.

Lemma reachable_domain (d : Disk) (calls : list Call) :
  dom (trust_network (run_calls (empty_tracker d) calls)) = list_to_set (call_agent <$> calls).
Proof.
  pose proof (run_calls_tracks d calls) as Htr.
  apply set_eq. intros a.
  rewrite elem_of_dom, elem_of_list_to_set, <- called_iff_calls_for.
  apply (Htr a).
Qed.

(** X6. On a tracker built from an empty one, the agents with a profile
    are exactly the agents of the calls made, and every stored count is at
    least 1. *)
Theorem stored_agents_are_the_called_ones (d : Disk) (calls : list Call) :
  let net := trust_network (run_calls (empty_tracker d) calls) in
  dom net = list_to_set (call_agent <$> calls) ∧
  ∀ a p, net !! a = Some p → (1 ≤ interactions p)%Z.
Proof.
  intros net. split; [apply reachable_domain|].
  pose proof (run_calls_tracks d calls) as Htr. fold net in Htr.
  intros a p Hp. destruct (Htr a) as (Hdom & Hn & _).
  unfold profile_before in Hn. rewrite Hp in Hn. simpl in Hn. rewrite Hn.
  assert (Hne : calls_for a calls ≠ []) by (apply Hdom; eauto).
  destruct (calls_for a calls); [done|]. simpl length. lia.
Qed.

(** ** [get_agent_profile] after updates *)

(** X7. On a tracker built from an empty one, [get_agent_profile] finds
    the profile of every agent that some call was about, whatever calls
    came after it, and answers with the error dict for every other agent;
    it never changes the tracker. *)
Theorem get_agent_profile_after_updates (d : Disk) (calls : list Call) (a : string) :
  let st := run_calls (empty_tracker d) calls in
  (a ∈ call_agent <$> calls →
     ∃ p, trust_network st !! a = Some p ∧
          get_agent_profile a st = (st, Return (ProfileFound p))) ∧
  (a ∉ call_agent <$> calls →
     get_agent_profile a st =
       (st, Return (ProfileError "Agent not found in trust network"))).
Proof.
  intros st. pose proof (reachable_domain d calls) as Hdom. fold st in Hdom.
  unfold get_agent_profile.
  rewrite (bind_returns get_network _ _ st (trust_network st)) by reflexivity.
  split; intros Ha.
  - assert (Hin : a ∈ dom (trust_network st)) by (rewrite Hdom; by apply elem_of_list_to_set).
    apply elem_of_dom in Hin as [p Hp]. exists p. by rewrite Hp.
  - assert (Hnin : a ∉ dom (trust_network st)).
    { rewrite Hdom. by rewrite elem_of_list_to_set. }
    apply not_elem_of_dom in Hnin. by rewrite Hnin.
Qed.

(** ** Updates and the file *)

Lemma init_on_saved_doc (d : Disk) (net : gmap string Profile) :
  content d = FileDoc (network_to_json net) →
  __init__ d = (mkTracker net d, Return ()).
Proof.
  intros H. unfold __init__. rewrite bind_unfold.
  rewrite (load_network_doc _ net) by done. reflexivity.
Qed.

Lemma init_on_unreadable_file (d : Disk) :
  content d = FileAbsent ∨ content d = FileMalformed →
  __init__ d = (mkTracker ∅ d, Return ()).
Proof.
  intros H. unfold __init__, _load_network, path_exists, read_file, try_except.
  unfold mbind, M_bind, get_disk, mret, M_ret, raise, put_network.
  destruct H as [H|H]; repeat (cbn; rewrite H); reflexivity.
Qed.





(** When the existence check itself raises, so does the constructor. *)
Lemma init_on_inaccessible_path (d : Disk) :
  content d = FileInaccessible →
  __init__ d = (mkTracker ∅ d, Raise OSError).
Proof.
  intros H. unfold __init__, _load_network, path_exists.
  unfold mbind, M_bind, get_disk, mret, M_ret, raise, put_network.
  cbn. rewrite H. reflexivity.
Qed.

(** X10. A file that is missing, or that exists but cannot be opened or
    parsed, is taken for an empty store, without an exception and without
    touching the file; the first update that follows (its write going
    through) replaces the file by the document of that one profile, whose
    count is 1 and whose averages are the scores supplied. *)
Theorem unreadable_file_starts_empty
    (d : Disk) (a : string) (quality reliability_score : Qc)
    (style : option string) (new_strengths new_areas : option (list string)) :
  content d = FileAbsent ∨ content d = FileMalformed →
  write_succeeds d →
  __init__ d = (mkTracker ∅ d, Return ()) ∧
  let out := update_trust a quality reliability_score style new_strengths new_areas
               (__init__ d).1 in
  ∃ p', out.2 = Return p' ∧
        interactions p' = 1%Z ∧
        reliability p' = reliability_score ∧
        interaction_quality p' = quality ∧
        trust_network out.1 = {[a := p']} ∧
        content (disk out.1) = FileDoc (network_to_json {[a := p']}).
Proof.
  intros Hc Hw. rewrite (init_on_unreadable_file d Hc). split; [done|]. simpl.
  rewrite update_trust_returns by (vm_compute; discriminate). simpl.
  eexists. split; [reflexivity|].
  assert (Havg : ∀ x, running_average 0 (0 + 1) x = x).
  { intros x. unfold running_average. change (0 + 1)%Z with 1%Z.
    rewrite Qcmult_0_l, Qcplus_0_l, Z2Qc_inj_1. apply (right_id 1 Qcdiv). }
  unfold profile_before. rewrite lookup_empty. simpl.
  split; [done|]. split; [apply Havg|]. split; [apply Havg|].
  split; [by rewrite insert_empty|].
  unfold disk_after_save, write_succeeds in *. rewrite insert_empty.
  destruct (outcomes d) as [|[] rest]; done.
Qed.

Lemma unreadable_file_starts_empty_witness :
  (content (mkDisk FileMalformed [WriteOk]) = FileAbsent ∨
   content (mkDisk FileMalformed [WriteOk]) = FileMalformed) ∧
  write_succeeds (mkDisk FileMalformed [WriteOk]) ∧
  __init__ (mkDisk FileMalformed [WriteOk])
  = (mkTracker ∅ (mkDisk FileMalformed [WriteOk]), Return ()).
Proof.
  assert (Hc : content (mkDisk FileMalformed [WriteOk]) = FileAbsent ∨
               content (mkDisk FileMalformed [WriteOk]) = FileMalformed)
    by (right; reflexivity).
  split; [exact Hc|]. split; [exact I|].
  exact (proj1 (unreadable_file_starts_empty (mkDisk FileMalformed [WriteOk]) "a" 1 1
                  None None None Hc I)).
Defined.

(** ** More on [get_collaboration_recommendation] *)

(** X11. A recommendation request never changes the tracker: neither the
    profile map nor the file, whether it returns a recommendation, returns
    the "not found" reply or raises. *)
Theorem recommendation_is_read_only (st : Tracker) (agent_ids : list string) :
  (get_collaboration_recommendation agent_ids st).1 = st.
Proof.
  destruct agent_ids as [|a l].
  - by rewrite recommendation_empty.
  - destruct (recommendation_nonempty_returns st (a :: l)) as [reply ->]; done.
Qed.

Lemma elem_of_requested {A} (key : Profile → A) (net : gmap string Profile)
    (agent_ids : list string) (x : A) :
  missing net agent_ids = [] →
  x ∈ requested key net agent_ids ↔
  ∃ a p, a ∈ agent_ids ∧ net !! a = Some p ∧ key p = x.
Proof.
  intros Hm. apply missing_nil_iff in Hm. rewrite Forall_forall in Hm.
  unfold requested. rewrite list_elem_of_fmap. split.
  - intros (a & -> & Ha). destruct (Hm a Ha) as [p Hp].
    exists a, p. unfold profile_before. by rewrite Hp.
  - intros (a & p & Ha & Hp & <-). exists a. unfold profile_before. by rewrite Hp.
Qed.

Lemma py_len_requested {A} (key : Profile → A) (net : gmap string Profile)
    (agent_ids : list string) :
  py_len (requested key net agent_ids) = py_len agent_ids.
Proof. unfold py_len, requested. by rewrite length_fmap. Qed.

Lemma optional_sentences (x1 x2 x3 : string) (P1 P2 P3 : Prop)
    `{Decision P1, Decision P2, Decision P3} :
  x1 ≠ x2 → x1 ≠ x3 → x2 ≠ x3 →
  let l := (if decide P1 then [x1] else []) ++ (if decide P2 then [x2] else []) ++
           (if decide P3 then [x3] else []) in
  (x1 ∈ l ↔ P1) ∧ (x2 ∈ l ↔ P2) ∧ (x3 ∈ l ↔ P3) ∧ l `sublist_of` [x1; x2; x3].
Proof.
  intros H12 H13 H23.
  destruct (decide P1), (decide P2), (decide P3); simpl;
    rewrite ?elem_of_cons, ?elem_of_nil;
    (split; [intuition congruence|]); (split; [intuition congruence|]);
    (split; [intuition congruence|]);
    repeat first [ apply sublist_nil_l | apply sublist_skip | apply sublist_cons ].
Qed.

(** X13. The sentences of the recommended approach: the one on common
    strengths is present exactly when some strength is common (and lists
    the common strengths, comma separated); the one on unique strengths
    exactly when some strength is unique. They come in this order, the
    sentence on verification steps can only follow them, and nothing else
    is recommended. *)
Theorem recommended_approach_rules
    (net : gmap string Profile) (d : Disk) (agent_ids : list string)
    (r : CollaborationRecommendation) :
  (get_collaboration_recommendation agent_ids (mkTracker net d)).2
    = Return (Recommendation r) →
  let leverage := ("Leverage common strengths: " ++ join ", " (common_strengths r))%string in
  let assign := "Assign tasks based on unique agent strengths" in
  let verify := "Implement verification steps to ensure reliability" in
  (leverage ∈ recommended_approach r ↔ common_strengths r ≠ []) ∧
  (assign ∈ recommended_approach r ↔ unique_strengths r ≠ []) ∧
  recommended_approach r `sublist_of` [leverage; assign; verify].
Proof.
  intros H leverage assign verify. apply recommendation_inv in H as (_ & _ & ->).
  subst leverage.
  cbn [recommended_approach common_strengths unique_strengths recommendation_of].
  set (common := (filter _ (strength_counts_of net agent_ids)).*1).
  set (unique := (filter (λ item, item.2 = 1%Z) (strength_counts_of net agent_ids)).*1).
  set (avg := py_sum (requested reliability net agent_ids) / py_len agent_ids).
  set (leverage := ("Leverage common strengths: " ++ join ", " common)%string).
  assert (Hla : leverage ≠ assign) by (unfold leverage, assign; simpl; discriminate).
  assert (Hlv : leverage ≠ verify) by (unfold leverage, verify; simpl; discriminate).
  assert (Hav : assign ≠ verify) by discriminate.
  pose proof (optional_sentences leverage assign verify
                (common ≠ []) (unique ≠ []) (avg < decimal 5 10) Hla Hlv Hav) as Hitems.
  cbv zeta in Hitems.
  replace (match common with [] => [] | _ :: _ => [leverage] end)
    with (if decide (common ≠ []) then [leverage] else []) by (by destruct common).
  replace (match unique with
           | [] => []
           | _ :: _ => ["Assign tasks based on unique agent strengths"]
           end)
    with (if decide (unique ≠ []) then [assign] else []) by (by destruct unique).
  destruct Hitems as (H1 & H2 & _ & H4). done.
Qed.

Lemma recommended_approach_rules_witness :
  ∃ r : CollaborationRecommendation,
    (get_collaboration_recommendation ["agent1"; "agent2"] demo_tracker).2
      = Return (Recommendation r) ∧
    "Assign tasks based on unique agent strengths" ∈ recommended_approach r.
Proof.
  eexists. split; [by vm_compute|].
  destruct (recommended_approach_rules (trust_network demo_tracker) (disk demo_tracker)
              ["agent1"; "agent2"] _ ltac:(by vm_compute)) as (_ & Hassign & _).
  apply Hassign. by vm_compute.
Defined.

Lemma agents_lookup (net : gmap string Profile) (agent_ids : list string) (a : string) :
  Forall (λ agent_id, is_Some (net !! agent_id)) agent_ids →
  (list_to_map (zip agent_ids (requested id net agent_ids)) : gmap string Profile) !! a
  = if decide (a ∈ agent_ids) then net !! a else None.
Proof.
  unfold requested. induction 1 as [|x l [p Hp] _ IH].
  - rewrite decide_False by apply not_elem_of_nil. apply lookup_empty.
  - rewrite fmap_cons. cbn [zip zip_with list_to_map foldr uncurry fst snd].
    destruct (decide (x = a)) as [->|Hne].
    + rewrite lookup_insert_eq, decide_True by apply list_elem_of_here.
      unfold profile_before. by rewrite Hp.
    + rewrite lookup_insert_ne by done. rewrite IH.
      destruct (decide (a ∈ l)) as [Hin|Hin].
      * by rewrite decide_True by (by apply list_elem_of_further).
      * rewrite decide_False; [done|]. intros [?|?]%elem_of_cons; congruence.
Qed.

(** X14. The [agents] entry of a recommendation maps every requested id
    to the stored profile of that agent and holds no other id (an id
    requested twice appears once). *)
Theorem agents_are_the_requested_profiles
    (net : gmap string Profile) (d : Disk) (agent_ids : list string)
    (r : CollaborationRecommendation) :
  (get_collaboration_recommendation agent_ids (mkTracker net d)).2
    = Return (Recommendation r) →
  (∀ a, a ∈ agent_ids → is_Some (net !! a) ∧ agents r !! a = net !! a) ∧
  (∀ a, a ∉ agent_ids → agents r !! a = None) ∧
  dom (agents r) = list_to_set agent_ids.
Proof.
  intros H. apply recommendation_inv in H as (_ & Hm & ->).
  apply missing_nil_iff in Hm.
  cbn [agents recommendation_of].
  split; [|split].
  - intros a Ha. rewrite agents_lookup, decide_True by done.
    split; [|done]. by apply (proj1 (Forall_forall _ _) Hm).
  - intros a Ha. by rewrite agents_lookup, decide_False.
  - apply set_eq. intros a. rewrite elem_of_dom, agents_lookup by done.
    rewrite elem_of_list_to_set. destruct (decide (a ∈ agent_ids)) as [Ha|Ha].
    + split; [done|]. intros _. by apply (proj1 (Forall_forall _ _) Hm).
    + split; [by intros []|done].
Qed.

Lemma agents_are_the_requested_profiles_witness :
  ∃ r : CollaborationRecommendation,
    (get_collaboration_recommendation ["agent2"; "agent2"] demo_tracker).2
      = Return (Recommendation r) ∧
    agents r !! "agent1" = None ∧
    agents r !! "agent2" = trust_network demo_tracker !! "agent2".
Proof.
  eexists. split; [by vm_compute|].
  destruct (agents_are_the_requested_profiles (trust_network demo_tracker)
              (disk demo_tracker) ["agent2"; "agent2"] _ ltac:(by vm_compute))
    as (Hin & Hout & _).
  split.
  - apply Hout. intros Ha. apply list_elem_of_In in Ha. simpl in Ha.
    destruct Ha as [Ha|[Ha|[]]]; discriminate Ha.
  - apply Hin, list_elem_of_here.
Defined.

(** ** Rounding and the range of the score *)

(** Turns a goal and hypotheses on canonical rationals into ones on plain
    rationals, where linear arithmetic decides. *)
Ltac qc_to_q :=
  unfold Qcle, Qclt, Qcminus, Qcplus, Qcopp, Qcmult, decimal, Q2Qc, Qc_of_Z in *;
  cbn [this] in *;
  rewrite ?Qred_correct in *;
  change (inject_Z 0) with 0%Q in *;
  repeat match goal with
         | |- context [inject_Z (Z.pos ?p)] =>
             change (inject_Z (Z.pos p)) with (Z.pos p # 1)%Q in *
         | H : context [inject_Z (Z.pos ?p)] |- _ =>
             change (inject_Z (Z.pos p)) with (Z.pos p # 1)%Q in *
         | |- context [inject_Z (Z.neg ?p)] =>
             change (inject_Z (Z.neg p)) with (Z.neg p # 1)%Q in *
         | H : context [inject_Z (Z.neg ?p)] |- _ =>
             change (inject_Z (Z.neg p)) with (Z.neg p # 1)%Q in *
         | |- context [inject_Z ?z] =>
             let q := fresh "q" in remember (inject_Z z) as q eqn:Hq; clear Hq
         | H : context [inject_Z ?z] |- _ =>
             let q := fresh "q" in remember (inject_Z z) as q eqn:Hq; clear Hq
         | |- context [this ?x] =>
             let q := fresh "q" in remember (this x) as q eqn:Hq; clear Hq
         | H : context [this ?x] |- _ =>
             let q := fresh "q" in remember (this x) as q eqn:Hq; clear Hq
         end.

Lemma floor_bounds (x : Qc) :
  Qc_of_Z (Qfloor x) ≤ x ∧ x < Qc_of_Z (Qfloor x) + 1.
Proof.
  pose proof (Qfloor_le x) as Hle. pose proof (Qlt_floor x) as Hlt.
  rewrite inject_Z_plus in Hlt.
  split; qc_to_q; lra.
Qed.

Lemma round_half_even_near (x : Qc) :
  x - decimal 1 2 ≤ Qc_of_Z (round_half_even x) ∧
  Qc_of_Z (round_half_even x) ≤ x + decimal 1 2.
Proof.
  destruct (floor_bounds x) as [Hle Hlt].
  unfold round_half_even.
  destruct (decide (x - Qc_of_Z (Qfloor x) < decimal 1 2)) as [H1|H1].
  - split; qc_to_q; lra.
  - apply Qcnot_lt_le in H1.
    assert (Hup : x - decimal 1 2 ≤ Qc_of_Z (Qfloor x + 1) ∧
                  Qc_of_Z (Qfloor x + 1) ≤ x + decimal 1 2).
    { rewrite Z2Qc_inj_add, Z2Qc_inj_1. split; qc_to_q; lra. }
    destruct (decide (decimal 1 2 < x - Qc_of_Z (Qfloor x))) as [H2|H2]; [done|].
    apply Qcnot_lt_le in H2.
    destruct (Z.even (Qfloor x)); [|done].
    split; qc_to_q; lra.
Qed.

Lemma div_in_unit (s k : Qc) : 0 < k → 0 ≤ s → s ≤ k → in_unit (s / k).
Proof.
  intros Hk H0 H1.
  assert (Hne : k ≠ 0) by (intros E; rewrite E in Hk; by apply Qclt_not_eq in Hk).
  assert (Hmul : s / k * k = s) by (field; done).
  split; apply (Qcmult_le_mono_pos_r _ _ k Hk); rewrite Hmul.
  - by rewrite Qcmult_0_l.
  - by rewrite Qcmult_1_l.
Qed.

Lemma py_sum_in_range (xs : list Qc) :
  Forall in_unit xs → 0 ≤ py_sum xs ∧ py_sum xs ≤ py_len xs.
Proof.
  induction xs as [|x xs IH] using rev_ind; intros Hall.
  - split; by vm_compute.
  - apply Forall_app in Hall as [Hall [[Hx0 Hx1] _]%Forall_cons].
    destruct (IH Hall) as [Hs0 Hs1].
    rewrite py_sum_snoc, py_len_snoc. split; qc_to_q; lra.
Qed.

Lemma mean_in_unit (xs : list Qc) :
  xs ≠ [] → Forall in_unit xs → in_unit (py_sum xs / py_len xs).
Proof.
  intros Hne Hall. destruct (py_sum_in_range xs Hall) as [H0 H1].
  apply div_in_unit; [|done|done].
  destruct (Qcle_lt_or_eq _ _ (py_len_nonneg xs)) as [Hlt|Heq]; [done|].
  symmetry in Heq. by apply py_len_nil_iff in Heq.
Qed.

Lemma py_round2_in_unit (x : Qc) : in_unit x → in_unit (py_round2 x).
Proof.
  intros [H0 H1]. unfold py_round2.
  destruct (round_half_even_near (x * Qc_of_Z 100)) as [Hlo Hhi].
  set (n := round_half_even (x * Qc_of_Z 100)) in *.
  assert (Hn0 : (0 ≤ n)%Z).
  { assert (Hlt : Qc_of_Z (-1) < Qc_of_Z n) by (qc_to_q; lra).
    apply Z2Qc_inj_lt in Hlt. lia. }
  assert (Hn1 : (n ≤ 100)%Z).
  { assert (Hlt : Qc_of_Z n < Qc_of_Z 101) by (qc_to_q; lra).
    apply Z2Qc_inj_lt in Hlt. lia. }
  apply div_in_unit.
  - by vm_compute.
  - by apply Qc_of_Z_nonneg.
  - exact (proj1 (Z2Qc_inj_le n 100) Hn1).
Qed.

(** X15. For a request whose agents all have averages in [0,1], the
    collaboration score of the recommendation lies in [0,1]. *)
Theorem score_stays_in_range
    (net : gmap string Profile) (d : Disk) (agent_ids : list string)
    (r : CollaborationRecommendation) :
  (get_collaboration_recommendation agent_ids (mkTracker net d)).2
    = Return (Recommendation r) →
  (∀ a p, a ∈ agent_ids → net !! a = Some p →
          in_unit (reliability p) ∧ in_unit (interaction_quality p)) →
  in_unit (collaboration_score r).
Proof.
  intros H Hrange. apply recommendation_inv in H as (Hne & Hm & ->).
  cbn [collaboration_score recommendation_of].
  apply py_round2_in_unit.
  unfold raw_score.
  assert (Hall : ∀ key : Profile → Qc,
            (∀ a p, a ∈ agent_ids → net !! a = Some p → in_unit (key p)) →
            in_unit (py_sum (requested key net agent_ids) / py_len agent_ids)).
  { intros key Hkey. rewrite <- (py_len_requested key net).
    apply mean_in_unit.
    - unfold requested. by destruct agent_ids.
    - apply Forall_forall. intros x Hx.
      apply (elem_of_requested key net agent_ids x Hm) in Hx as (a & p & Ha & Hp & <-).
      by eapply Hkey. }
  destruct (Hall reliability) as [Hr0 Hr1]; [intros; by eapply Hrange|].
  destruct (Hall interaction_quality) as [Hq0 Hq1]; [intros; by eapply Hrange|].
  set (ar := py_sum (requested reliability net agent_ids) / py_len agent_ids) in *.
  set (aq := py_sum (requested interaction_quality net agent_ids) / py_len agent_ids) in *.
  assert (H2 : Qc_of_Z 2 ≠ 0) by (by rewrite Qc_of_Z_eq_0).
  assert (Hmul : (ar + aq) / Qc_of_Z 2 * Qc_of_Z 2 = ar + aq) by (field; done).
  set (m := (ar + aq) / Qc_of_Z 2) in *. clearbody m ar aq.
  assert (Hle1 : m * Qc_of_Z 2 ≤ ar + aq) by (rewrite Hmul; apply Qcle_refl).
  assert (Hle2 : ar + aq ≤ m * Qc_of_Z 2) by (rewrite Hmul; apply Qcle_refl).
  clear Hmul. split; qc_to_q; lra.
Qed.

Lemma score_stays_in_range_witness :
  ∃ r : CollaborationRecommendation,
    (get_collaboration_recommendation ["agent1"; "agent2"] demo_tracker).2
      = Return (Recommendation r) ∧
    in_unit (collaboration_score r).
Proof.
  eexists. split; [by vm_compute|].
  refine (score_stays_in_range (trust_network demo_tracker) (disk demo_tracker)
            ["agent1"; "agent2"] _ ltac:(by vm_compute) _).
  intros a p _ Hp.
  exact (scores_in_range_reachable (mkDisk FileAbsent []) demo_calls demo_calls_in_range a p Hp).
Defined.

(** ** A request for one agent *)





(** ** The singleton and the tools *)

Lemma get_agent_profile_runs (net : gmap string Profile) (d : Disk) (a : string) :
  get_agent_profile a (mkTracker net d) =
  (mkTracker net d,
   Return (match net !! a with
           | Some p => ProfileFound p
           | None => ProfileError "Agent not found in trust network"
           end)).
Proof.
  unfold get_agent_profile.
  rewrite (bind_returns get_network _ _ (mkTracker net d) net) by reflexivity.
  by destruct (net !! a).
Qed.

Lemma create_tools_imported (d : Disk) (net0 : gmap string Profile) :
  __init__ d = (mkTracker net0 d, Return ()) →
  create_trust_network_tools (imported d) = (mkModule [net0] (Some 0%nat) d, Return (mkTools 0)).
Proof.
  intros H. unfold create_trust_network_tools, get_trust_network, TrustNetworkTracker, imported.
  cbn [_trust_network_instance data_file trackers]. rewrite H. reflexivity.
Qed.

Lemma initialize_runs (m : Module) (net0 : gmap string Profile) :
  __init__ (data_file m) = (mkTracker net0 (data_file m), Return ()) →
  initialize_trust_network m =
  (mkModule (trackers m ++ [net0]) (Some (length (trackers m))) (data_file m), Return ()).
Proof.
  intros H. unfold initialize_trust_network, TrustNetworkTracker. rewrite H. reflexivity.
Qed.

Lemma on_tracker_runs {A} (i : nat) (method : M A) (m : Module)
    (net : gmap string Profile) (t : Tracker) (r : result A) :
  trackers m !! i = Some net →
  method (mkTracker net (data_file m)) = (t, r) →
  on_tracker i method m =
  (mkModule (<[i := trust_network t]> (trackers m)) (_trust_network_instance m) (disk t), r).
Proof. intros Hi Hrun. unfold on_tracker. rewrite Hi, Hrun. reflexivity. Qed.

Lemma get_trust_network_set (m : Module) (i : nat) :
  _trust_network_instance m = Some i → get_trust_network m = (m, Return i).
Proof. intros H. unfold get_trust_network. by rewrite H. Qed.

Lemma singleton_profile_runs (m : Module) (i : nat) (net : gmap string Profile) (a : string) :
  _trust_network_instance m = Some i →
  trackers m !! i = Some net →
  singleton_profile a m =
  (m, Return (match net !! a with
              | Some p => ProfileFound p
              | None => ProfileError "Agent not found in trust network"
              end)).
Proof.
  intros Hi Hnet. unfold singleton_profile. rewrite (get_trust_network_set m i Hi).
  rewrite (on_tracker_runs i _ m net _ _ Hnet (get_agent_profile_runs net (data_file m) a)).
  cbn [trust_network disk]. rewrite list_insert_id by done. by destruct m.
Qed.



(** X18. Re-initialising detaches the tools: when
    [initialize_trust_network()] runs after the tools were created, the
    tools keep the tracker they were created with. An update then made
    through the update tool for an agent the file did not hold is written
    to the file (the write going through) and is seen by the profile tool,
    but [get_trust_network()] answers with the new tracker, whose
    [get_agent_profile] does not find the agent. *)
Theorem initialize_detaches_the_tools
    (d : Disk) (net0 : gmap string Profile) (a : string) (quality reliability_score : Qc)
    (style : option string) (new_strengths new_areas : option (list string)) :
  __init__ d = (mkTracker net0 d, Return ()) →
  net0 !! a = None →
  write_succeeds d →
  ∃ m1 tools m2 m3 p,
    create_trust_network_tools (imported d) = (m1, Return tools) ∧
    initialize_trust_network m1 = (m2, Return ()) ∧
    update_trust_tool tools a quality reliability_score style new_strengths new_areas m2
      = (m3, Return p) ∧
    get_agent_profile_tool tools a m3 = (m3, Return (ProfileFound p)) ∧
    (∃ i, get_trust_network m3 = (m3, Return i) ∧ i ≠ network tools) ∧
    singleton_profile a m3
      = (m3, Return (ProfileError "Agent not found in trust network")) ∧
    trust_network (__init__ (data_file m3)).1 !! a = Some p.
Proof.
  intros Hinit Ha Hw.
  assert (Hn : (interactions (profile_before net0 a) + 1)%Z ≠ 0%Z).
  { unfold profile_before. rewrite Ha. simpl. lia. }
  set (p := updated_profile (profile_before net0 a) quality reliability_score style
              new_strengths new_areas).
  set (net1 := <[a := p]> net0).
  set (m3 := mkModule [net1; net0] (Some 1%nat) (disk_after_save net1 d)).
  exists (mkModule [net0] (Some 0%nat) d), (mkTools 0),
         (mkModule [net0; net0] (Some 1%nat) d), m3, p.
  split; [by apply create_tools_imported|].
  split; [by rewrite (initialize_runs _ net0)|].
  split.
  { unfold update_trust_tool. cbn [network].
    rewrite (on_tracker_runs 0 _ _ net0 (mkTracker net1 (disk_after_save net1 d)) (Return p));
      [done | done |].
    by apply update_trust_returns. }
  split.
  { unfold get_agent_profile_tool. cbn [network].
    rewrite (on_tracker_runs 0 _ m3 net1 _ _ eq_refl (get_agent_profile_runs net1 _ a)).
    unfold net1. by rewrite lookup_insert_eq. }
  split.
  { exists 1%nat. split; [by apply get_trust_network_set | simpl; lia]. }
  split.
  { rewrite (singleton_profile_runs m3 1 net0 a) by done. by rewrite Ha. }
  rewrite (init_on_saved_doc _ net1).
  - simpl. apply lookup_insert_eq.
  - simpl. unfold disk_after_save, write_succeeds in *.
    destruct (outcomes d) as [|[] rest]; done.
Qed.

Lemma initialize_detaches_the_tools_witness :
  __init__ (mkDisk FileAbsent []) = (mkTracker ∅ (mkDisk FileAbsent []), Return ()) ∧
  (∅ : gmap string Profile) !! "a" = None ∧
  write_succeeds (mkDisk FileAbsent []) ∧
  ∃ m1 tools m2 m3 p,
    create_trust_network_tools (imported (mkDisk FileAbsent [])) = (m1, Return tools) ∧
    initialize_trust_network m1 = (m2, Return ()) ∧
    update_trust_tool tools "a" 1 1 None None None m2 = (m3, Return p) ∧
    singleton_profile "a" m3
      = (m3, Return (ProfileError "Agent not found in trust network")).
Proof.
  assert (H1 : __init__ (mkDisk FileAbsent [])
               = (mkTracker ∅ (mkDisk FileAbsent []), Return ())) by reflexivity.
  assert (H2 : (∅ : gmap string Profile) !! "a" = None) by apply lookup_empty.
  split; [exact H1|]. split; [exact H2|]. split; [exact I|].
  destruct (initialize_detaches_the_tools (mkDisk FileAbsent []) ∅ "a" 1 1 None None None
              H1 H2 I) as (m1 & tools & m2 & m3 & p & Hc & Hi & Hu & _ & _ & Hs & _).
  exists m1, tools, m2, m3, p.
  split; [exact Hc|]. split; [exact Hi|]. split; [exact Hu|exact Hs].
Defined.
